(** * backup-to-s3: the upload pipeline of [S3BackupManager]

    A shallow embedding of [src/backup/backup-to-s3.py].  The Python methods
    become functions in a state-and-exception monad over a [World] that holds
    the backup directory, the remote store, the statistics dictionary, the
    log and the journal of requests sent to the S3 client.

    What is external to the script is kept external here:
    - the boto3 client is a record of three operations ([S3Client]) over an
      arbitrary remote state, each of which may raise;
    - [hashlib] is an interface ([Hashlib]) with an incremental [update];
    - timestamps ([datetime.now()], [st_ctime]) are integers, counted in
      microseconds of naive local time, the resolution of [datetime];
    - [configparser] hands [load_config] the sections of the file as maps
      of options; [int(...)], the boolean conversion, [Path(...)] and the
      construction of the boto3 client are parameters of [load_config] and
      [main].

    Some library calls of the script refuse part of their arguments:
    [ThreadPoolExecutor] a number of workers that is not positive,
    [timedelta] and [datetime] a date outside of the years 1 to 9999,
    [ConfigParser] a value with a stray percent sign, [parse_args] a
    malformed command line.  The last one is an input of [main]; for the
    others the functions below follow the script where the library accepts
    its arguments, and [within_limits] and [interpolation_free] say where
    that is.

    The thread pool of [run_backup] is modelled by its sequential schedule:
    every [_upload_file] task runs to completion before the next one starts,
    and the futures are collected afterwards.  Exceptions are the subclasses
    of [Exception]; what [except Exception] does not catch
    ([KeyboardInterrupt]) is outside the model, and [SystemExit] appears
    only as the exit status of [main]. *)

From Stdlib Require Import ZArith List Lia Ascii String.
From Stdlib.Strings Require Import Byte.
From Stdlib.Sorting Require Import Sorted.
From stdpp Require Import base option list gmap strings.

Local Open Scope Z_scope.
Local Open Scope string_scope.
Local Open Scope list_scope.

(** ** Python strings *)

Module PyStr.

(** The character [chr(34)], the double quote. *)
Definition dquote : ascii := "034"%char.
Definition hyphen : ascii := "-"%char.
Definition dot : ascii := "."%char.

(** [c in s] for a one-character [c]. *)
Fixpoint contains (c : ascii) (s : string) : bool :=
  match s with
  | EmptyString => false
  | String a s' => if Ascii.eqb a c then true else contains c s'
  end.

(** [s.lstrip(c)], [s.rstrip(c)] and [s.strip(c)] for a one-character [c]. *)
Fixpoint lstrip (c : ascii) (s : string) : string :=
  match s with
  | EmptyString => EmptyString
  | String a s' => if Ascii.eqb a c then lstrip c s' else s
  end.

Definition rstrip (c : ascii) (s : string) : string :=
  String.rev (lstrip c (String.rev s)).

Definition strip (c : ascii) (s : string) : string :=
  rstrip c (lstrip c s).

(** [s[i:]] *)
Fixpoint slice_from (i : nat) (s : string) : string :=
  match i, s with
  | O, _ => s
  | S i', String _ s' => slice_from i' s'
  | S _, EmptyString => EmptyString
  end.

(** [s.rfind(c)]: the index of the last occurrence of [c], [None] for -1. *)
Fixpoint rfind (c : ascii) (s : string) : option nat :=
  match s with
  | EmptyString => None
  | String a s' =>
      match rfind c s' with
      | Some i => Some (S i)
      | None => if Ascii.eqb a c then Some O else None
      end
  end.

(** [PurePath.suffix] applied to a file name:
    [i = name.rfind('.')]; [name[i:]] if [0 < i < len(name) - 1], else ['']. *)
Definition suffix (name : string) : string :=
  match rfind dot name with
  | Some i =>
      if ((0 <? Z.of_nat i) && (Z.of_nat i <? Z.of_nat (String.length name) - 1))%Z
      then slice_from i name
      else EmptyString
  | None => EmptyString
  end.

(** [s in t] for a tuple [t] of strings. *)
Definition mem (s : string) (t : list string) : bool :=
  existsb (String.eqb s) t.

End PyStr.

(** ** Exceptions *)

(** The subclasses of [Exception] that the calls of the script can raise.
    [ClientError] carries [e.response['Error']['Code']]. *)
Inductive Exception : Type :=
| ClientError (code : string)
| S3UploadFailedError (msg : string)
| EndpointConnectionError (url : string)
| FileNotFoundError (path : string)
| PermissionError (path : string)
| KeyError (key : string).

Definition is_ClientError (e : Exception) : bool :=
  match e with ClientError _ => true | _ => false end.

Inductive Result (A : Type) : Type :=
| Ok (a : A)
| Raise (e : Exception).
Arguments Ok {A} a.
Arguments Raise {A} e.

(** ** Data model *)

(** [BackupConfig] *)
Record BackupConfig : Type := {
  backup_dir : string;
  backup_extensions : list string;
  day_delta : Z;
  s3_endpoint : string;
  s3_bucket : string;
  s3_access_key : string;
  s3_secret_key : string;
  s3_region : string;
  verify_ssl : bool;
  delete_after_upload : bool;
  max_workers : Z;
  multipart_threshold : Z;
  max_retries : Z
}.

(** An entry of the backup directory. *)
Record File : Type := {
  data : list byte;
  st_ctime : Z;
  is_file : bool
}.

Definition st_size (f : File) : Z := Z.of_nat (length (data f)).

(** The backup directory: its entries by name, and whether entries may be
    removed from it. *)
Record Directory : Type := {
  entries : gmap string File;
  writable : bool
}.

(** [self.stats] *)
Record Stats : Type := {
  uploaded : Z;
  skipped : Z;
  failed : Z;
  deleted : Z;
  total_bytes : Z
}.

Definition stats0 : Stats :=
  {| uploaded := 0; skipped := 0; failed := 0; deleted := 0; total_bytes := 0 |}.

(** The response of [head_object]: the two keys the script reads. *)
Record Response : Type := {
  ETag : option string;
  ContentLength : option Z
}.

(** [ExtraArgs] and [TransferConfig] of [upload_file]. *)
Record ExtraArgs : Type := {
  StorageClass : string;
  original_path : string;
  upload_date : Z
}.

Record TransferConfig : Type := {
  tc_multipart_threshold : Z;
  tc_max_concurrency : Z;
  tc_use_threads : bool
}.

(** Requests sent to the S3 client. *)
Inductive Call : Type :=
| HeadObject (bucket key : string)
| UploadFile (filename bucket key : string) (extra : ExtraArgs) (cfg : TransferConfig)
| DeleteObject (bucket key : string).

Definition is_head (c : Call) : bool :=
  match c with HeadObject _ _ => true | _ => false end.

(** Log records: level and message, one constructor per message of the script. *)
Inductive Level : Type := INFO | ERROR.

Inductive Message : Type :=
| MsgCheckError (key : string) (e : Exception)
| MsgVerifiedSize (key : string) (local_size : Z)
| MsgVerifiedMD5 (key : string)
| MsgVerifyError (key : string) (e : Exception)
| MsgSkipped (key : string)
| MsgDryRun (key : string) (file_size : Z)
| MsgUploading (key : string) (file_size : Z)
| MsgVerifyFailed (key : string)
| MsgUploaded (key : string)
| MsgDeletedLocal (path : string)
| MsgS3Error (key : string) (e : Exception)
| MsgUnexpected (key : string) (e : Exception)
| MsgNoDirectory (dir : string)
| MsgRule
| MsgStart
| MsgDryRunMode
| MsgEndpoint (url : string)
| MsgBucket (bucket : string)
| MsgNoFiles
| MsgFound (n : Z)
| MsgTotalSize (bytes : Z)
| MsgCritical (path : string) (e : Exception)
| MsgStatsHeader
| MsgStatUploaded (n : Z)
| MsgStatSkipped (n : Z)
| MsgStatFailed (n : Z)
| MsgStatDeleted (n : Z)
| MsgStatTotalBytes (n : Z).

(** ** External collaborators *)

(** The boto3 client, over an arbitrary remote state.  [head_object] only
    reads the remote state; [upload_file] is given what the local file system
    holds under [Filename], which it reads itself. *)
Record S3Client (Remote : Type) : Type := {
  head_object : Remote -> string -> string -> Result Response;
  upload_file : Remote -> option File -> string -> string -> string ->
                ExtraArgs -> TransferConfig -> Remote * Result unit;
  delete_object : Remote -> string -> string -> Remote * Result unit
}.
Arguments head_object {Remote} _ _ _ _.
Arguments upload_file {Remote} _ _ _ _ _ _ _ _.
Arguments delete_object {Remote} _ _ _ _.

(** [hashlib]: [hashlib.new(algorithm)], [update], [hexdigest]. *)
Class Hashlib : Type := {
  hash_state : Type;
  hashlib_new : string -> hash_state;
  hash_update : hash_state -> list byte -> hash_state;
  hexdigest : hash_state -> string
}.

(** Feeding a hash in pieces is feeding it the concatenation, and feeding
    it nothing leaves it as it is. *)
Class HashlibStreaming (H : Hashlib) : Prop := {
  hash_update_app : forall (h : hash_state) (a b : list byte),
    hash_update (hash_update h a) b = hash_update h (a ++ b);
  hash_update_nil : forall h : hash_state, hash_update h [] = h
}.

(** ** The world and the monad *)

Record World (Remote : Type) : Type := {
  fs : option Directory;          (* [config.backup_dir], [None] if absent *)
  remote : Remote;                (* the object store *)
  stats : Stats;                  (* [self.stats] *)
  log : list (Level * Message);   (* what [logger] has emitted, oldest first *)
  calls : list Call;              (* requests sent to the client, oldest first *)
  clock : Z                       (* [datetime.now()] *)
}.
Arguments fs {Remote} _.
Arguments remote {Remote} _.
Arguments stats {Remote} _.
Arguments log {Remote} _.
Arguments calls {Remote} _.
Arguments clock {Remote} _.

Section Monad.
Context {Remote : Type}.

Definition M (A : Type) : Type := World Remote -> Result A * World Remote.

Definition ret {A} (a : A) : M A := fun w => (Ok a, w).

Definition raise {A} (e : Exception) : M A := fun w => (Raise e, w).

Definition bind {A B} (m : M A) (k : A -> M B) : M B :=
  fun w =>
    match m w with
    | (Ok a, w') => k a w'
    | (Raise e, w') => (Raise e, w')
    end.

(** [try: m  except Exception as e: handler e]; the effects of [m] up to
    the point of the exception are kept. *)
Definition try_except {A} (m : M A) (handler : Exception -> M A) : M A :=
  fun w =>
    match m w with
    | (Ok a, w') => (Ok a, w')
    | (Raise e, w') => handler e w'
    end.

Definition when (b : bool) (m : M unit) : M unit :=
  if b then m else ret tt.

Definition set_fs (d : option Directory) (w : World Remote) : World Remote :=
  {| fs := d; remote := remote w; stats := stats w; log := log w;
     calls := calls w; clock := clock w |}.

Definition set_remote (r : Remote) (w : World Remote) : World Remote :=
  {| fs := fs w; remote := r; stats := stats w; log := log w;
     calls := calls w; clock := clock w |}.

Definition set_stats (s : Stats) (w : World Remote) : World Remote :=
  {| fs := fs w; remote := remote w; stats := s; log := log w;
     calls := calls w; clock := clock w |}.

Definition add_log (r : Level * Message) (w : World Remote) : World Remote :=
  {| fs := fs w; remote := remote w; stats := stats w; log := log w ++ [r];
     calls := calls w; clock := clock w |}.

Definition add_call (c : Call) (w : World Remote) : World Remote :=
  {| fs := fs w; remote := remote w; stats := stats w; log := log w;
     calls := calls w ++ [c]; clock := clock w |}.

(** [logger.info] and [logger.error] *)
Definition logger (lvl : Level) (msg : Message) : M unit :=
  fun w => (Ok tt, add_log (lvl, msg) w).

(** [datetime.now()] *)
Definition datetime_now : M Z := fun w => (Ok (clock w), w).

(** [self.stats[...] += n], one definition per key. *)
Definition stats_uploaded_add (n : Z) : M unit := fun w =>
  let s := stats w in
  (Ok tt, set_stats {| uploaded := uploaded s + n; skipped := skipped s;
                       failed := failed s; deleted := deleted s;
                       total_bytes := total_bytes s |} w).

Definition stats_skipped_add (n : Z) : M unit := fun w =>
  let s := stats w in
  (Ok tt, set_stats {| uploaded := uploaded s; skipped := skipped s + n;
                       failed := failed s; deleted := deleted s;
                       total_bytes := total_bytes s |} w).

Definition stats_failed_add (n : Z) : M unit := fun w =>
  let s := stats w in
  (Ok tt, set_stats {| uploaded := uploaded s; skipped := skipped s;
                       failed := failed s + n; deleted := deleted s;
                       total_bytes := total_bytes s |} w).

Definition stats_deleted_add (n : Z) : M unit := fun w =>
  let s := stats w in
  (Ok tt, set_stats {| uploaded := uploaded s; skipped := skipped s;
                       failed := failed s; deleted := deleted s + n;
                       total_bytes := total_bytes s |} w).

Definition stats_total_bytes_add (n : Z) : M unit := fun w =>
  let s := stats w in
  (Ok tt, set_stats {| uploaded := uploaded s; skipped := skipped s;
                       failed := failed s; deleted := deleted s;
                       total_bytes := total_bytes s + n |} w).

(** *** The local file system *)

Definition lookup_file (d : option Directory) (name : string) : option File :=
  match d with
  | Some dir => entries dir !! name
  | None => None
  end.

(** [file_path.stat()] *)
Definition path_stat (name : string) : M File := fun w =>
  match lookup_file (fs w) name with
  | Some f => (Ok f, w)
  | None => (Raise (FileNotFoundError name), w)
  end.

(** [open(file_path, 'rb')] followed by reading the whole handle. *)
Definition open_rb (name : string) : M (list byte) := fun w =>
  match lookup_file (fs w) name with
  | Some f => (Ok (data f), w)
  | None => (Raise (FileNotFoundError name), w)
  end.

(** [file_path.unlink()] *)
Definition path_unlink (name : string) : M unit := fun w =>
  match fs w with
  | Some dir =>
      match entries dir !! name with
      | Some _ =>
          if writable dir
          then (Ok tt, set_fs (Some {| entries := delete name (entries dir);
                                       writable := writable dir |}) w)
          else (Raise (PermissionError name), w)
      | None => (Raise (FileNotFoundError name), w)
      end
  | None => (Raise (FileNotFoundError name), w)
  end.

End Monad.

Declare Scope backup_scope.
Delimit Scope backup_scope with backup.
Notation "x <- m ;; k" := (bind m (fun x => k))
  (at level 100, m at next level, k at level 200, right associativity) : backup_scope.
Notation "m ;; k" := (bind m (fun _ => k))
  (at level 100, k at level 200, right associativity) : backup_scope.
Local Open Scope backup_scope.

(** ** The program *)

Section Program.
Context {Remote : Type} (s3_client : S3Client Remote) {hashlib : Hashlib}.
Context (config : BackupConfig).

(** A [Path] below [config.backup_dir] is represented by its [name];
    [path_str] is [str(file_path)], that is [str(backup_dir / name)], where
    [backup_dir config] is [str(backup_dir)]: the current directory ["."]
    is not written, and a root, which ends with its slash, gets no second
    one. *)
Fixpoint ends_with (c : ascii) (s : string) : bool :=
  match s with
  | EmptyString => false
  | String a EmptyString => Ascii.eqb a c
  | String _ s' => ends_with c s'
  end.

Definition path_str (name : string) : string :=
  let directory := backup_dir config in
  if String.eqb directory "." || String.eqb directory "" then name
  else if ends_with "/"%char directory then (directory ++ name)%string
  else (directory ++ "/" ++ name)%string.

(** *** Calls of [self.s3_client], each recorded in [calls] *)

Definition s3_head_object (bucket key : string) : M (Remote:=Remote) Response :=
  fun w =>
    (head_object s3_client (remote w) bucket key,
     add_call (HeadObject bucket key) w).

Definition s3_upload_file (file_path : string) (bucket key : string)
    (extra : ExtraArgs) (cfg : TransferConfig) : M (Remote:=Remote) unit :=
  fun w =>
    let filename := path_str file_path in
    let '(r, res) :=
      upload_file s3_client (remote w) (lookup_file (fs w) file_path)
                  filename bucket key extra cfg in
    (res, set_remote r (add_call (UploadFile filename bucket key extra cfg) w)).

Definition s3_delete_object (bucket key : string) : M (Remote:=Remote) unit :=
  fun w =>
    let '(r, res) := delete_object s3_client (remote w) bucket key in
    (res, set_remote r (add_call (DeleteObject bucket key) w)).

(** [response['ETag']] and [response['ContentLength']] *)
Definition getitem_ETag (response : Response) : M (Remote:=Remote) string :=
  match ETag response with
  | Some e => ret e
  | None => raise (KeyError "ETag")
  end.

Definition getitem_ContentLength (response : Response) : M (Remote:=Remote) Z :=
  match ContentLength response with
  | Some n => ret n
  | None => raise (KeyError "ContentLength")
  end.

(** *** [_calculate_file_hash] *)

(** [for chunk in iter(lambda: f.read(8192), b''): hash_func.update(chunk)],
    on the bytes [rest] still to be read; every round reads at least one
    byte, so [S (length rest)] rounds reach the end of the file. *)
Definition chunk_size : nat := Z.to_nat 8192.

Fixpoint read_chunks (rounds : nat) (hash_func : hash_state) (rest : list byte)
    : hash_state :=
  match rounds with
  | O => hash_func
  | S n =>
      match take chunk_size rest with
      | [] => hash_func
      | chunk => read_chunks n (hash_update hash_func chunk) (drop chunk_size rest)
      end
  end.

Definition _calculate_file_hash (file_path : string) (algorithm : string)
    : M (Remote:=Remote) string :=
  let hash_func := hashlib_new algorithm in
  content <- open_rb file_path ;;
  ret (hexdigest (read_chunks (S (length content)) hash_func content)).

(** *** [_file_exists_in_s3] *)

Definition _file_exists_in_s3 (key : string)
    : M (Remote:=Remote) (bool * option string) :=
  try_except
    (response <- s3_head_object (s3_bucket config) key ;;
     let etag := PyStr.strip PyStr.dquote (default "" (ETag response)) in
     ret (true, Some etag))
    (fun e =>
       match e with
       | ClientError code =>
           if String.eqb code "404" then ret (false, None)
           else (logger ERROR (MsgCheckError key e) ;; raise e)
       | _ => raise e
       end).

(** *** [_verify_upload] *)

Definition _verify_upload (file_path : string) (s3_key : string)
    : M (Remote:=Remote) bool :=
  try_except
    (local_md5 <- _calculate_file_hash file_path "md5" ;;
     response <- s3_head_object (s3_bucket config) s3_key ;;
     etag <- getitem_ETag response ;;
     let s3_etag := PyStr.strip PyStr.dquote etag in
     if PyStr.contains PyStr.hyphen s3_etag then
       st <- path_stat file_path ;;
       let local_size := st_size st in
       s3_size <- getitem_ContentLength response ;;
       let verified := (local_size =? s3_size)%Z in
       when verified (logger INFO (MsgVerifiedSize s3_key local_size)) ;;
       ret verified
     else
       let verified := String.eqb local_md5 s3_etag in
       when verified (logger INFO (MsgVerifiedMD5 s3_key)) ;;
       ret verified)
    (fun e => logger ERROR (MsgVerifyError s3_key e) ;; ret false).

(** *** [_upload_file] *)

(** The call of [self.s3_client.upload_file] with its arguments. *)
Definition upload_call (file_path s3_key : string) : M (Remote:=Remote) unit :=
  upload_date <- datetime_now ;;
  let extra_args := {| StorageClass := "STANDARD";
                       original_path := path_str file_path;
                       upload_date := upload_date |} in
  s3_upload_file file_path (s3_bucket config) s3_key extra_args
    {| tc_multipart_threshold := multipart_threshold config;
       tc_max_concurrency := 10;
       tc_use_threads := true |}.

(** The body of the [try] block. *)
Definition upload_body (file_path s3_key : string) (file_size : Z)
    (dry_run : bool) : M (Remote:=Remote) bool :=
  found <- _file_exists_in_s3 s3_key ;;
  let '(exists_, s3_etag) := found in
  if exists_ : bool then
    logger INFO (MsgSkipped s3_key) ;;
    stats_skipped_add 1 ;;
    ret false
  else if dry_run then
    logger INFO (MsgDryRun s3_key file_size) ;;
    ret false
  else
    logger INFO (MsgUploading s3_key file_size) ;;
    upload_call file_path s3_key ;;
    verified <- _verify_upload file_path s3_key ;;
    if negb verified then
      logger ERROR (MsgVerifyFailed s3_key) ;;
      s3_delete_object (s3_bucket config) s3_key ;;
      ret false
    else
      logger INFO (MsgUploaded s3_key) ;;
      stats_uploaded_add 1 ;;
      stats_total_bytes_add file_size ;;
      when (delete_after_upload config)
        (path_unlink file_path ;;
         stats_deleted_add 1 ;;
         logger INFO (MsgDeletedLocal (path_str file_path))) ;;
      ret true.

(** The two [except] clauses: [ClientError] first, then [Exception]. *)
Definition upload_except (s3_key : string) (e : Exception)
    : M (Remote:=Remote) bool :=
  if is_ClientError e then
    logger ERROR (MsgS3Error s3_key e) ;;
    stats_failed_add 1 ;;
    ret false
  else
    logger ERROR (MsgUnexpected s3_key e) ;;
    stats_failed_add 1 ;;
    ret false.

Definition _upload_file (file_path : string) (dry_run : bool)
    : M (Remote:=Remote) bool :=
  let s3_key := file_path in
  st <- path_stat file_path ;;
  let file_size := st_size st in
  try_except (upload_body file_path s3_key file_size dry_run)
             (upload_except s3_key).

(** *** [get_files_for_backup] *)

(** [timedelta(days=1)] in microseconds. *)
Definition day_us : Z := 86400 * 1000000.

(** [sorted(l, key=key)]: a stable sort, equal keys keep their order. *)
Fixpoint insert_by {A} (key : A -> Z) (x : A) (l : list A) : list A :=
  match l with
  | [] => [x]
  | y :: l' => if (key x <? key y)%Z then x :: l else y :: insert_by key x l'
  end.

Definition sorted {A} (key : A -> Z) (l : list A) : list A :=
  fold_left (fun acc x => insert_by key x acc) l [].

(** The test of the loop body on one directory entry. *)
Definition qualifies (cutoff_date : Z) (entry : string * File) : bool :=
  let '(name, f) := entry in
  if is_file f && PyStr.mem (PyStr.suffix name) (backup_extensions config) then
    let create_date := st_ctime f in
    (create_date >=? cutoff_date)%Z
  else false.

Definition get_files_for_backup : M (Remote:=Remote) (list string) :=
  fun w =>
    match fs w with
    | None =>
        (logger ERROR (MsgNoDirectory (backup_dir config)) ;; ret []) w
    | Some dir =>
        (current_date <- datetime_now ;;
         let cutoff_date := (current_date - day_delta config * day_us)%Z in
         let files_for_backup :=
           List.filter (qualifies cutoff_date) (map_to_list (entries dir)) in
         ret (map fst (sorted (fun e => st_ctime (snd e)) files_for_backup))) w
    end.

(** *** [run_backup] *)

(** [executor.submit(task)]: the task runs, its return value or exception
    is kept in the future. *)
Definition executor_submit {A} (task : M (Remote:=Remote) A)
    : M (Remote:=Remote) (Result A) :=
  fun w => let '(r, w') := task w in (Ok r, w').

(** [future.result()] *)
Definition future_result {A} (future : Result A) : M (Remote:=Remote) A :=
  fun w => (future, w).

(** The dict comprehension that builds [futures]. *)
Fixpoint submit_all (files : list string) (dry_run : bool)
    : M (Remote:=Remote) (list (string * Result bool)) :=
  match files with
  | [] => ret []
  | file_path :: rest =>
      future <- executor_submit (_upload_file file_path dry_run) ;;
      futures <- submit_all rest dry_run ;;
      ret ((file_path, future) :: futures)
  end.

(** [for future in as_completed(futures): ...] *)
Fixpoint as_completed_loop (futures : list (string * Result bool))
    : M (Remote:=Remote) unit :=
  match futures with
  | [] => ret tt
  | (file_path, future) :: rest =>
      try_except (future_result future ;; ret tt)
                 (fun e => logger ERROR (MsgCritical (path_str file_path) e)) ;;
      as_completed_loop rest
  end.

(** [sum(f.stat().st_size for f in files)] *)
Fixpoint sum_sizes (files : list string) : M (Remote:=Remote) Z :=
  match files with
  | [] => ret 0%Z
  | f :: rest =>
      st <- path_stat f ;;
      n <- sum_sizes rest ;;
      ret (st_size st + n)%Z
  end.

Definition get_stats : M (Remote:=Remote) Stats := fun w => (Ok (stats w), w).

Definition log_statistics : M (Remote:=Remote) unit :=
  logger INFO MsgRule ;;
  logger INFO MsgStatsHeader ;;
  s <- get_stats ;; logger INFO (MsgStatUploaded (uploaded s)) ;;
  s <- get_stats ;; logger INFO (MsgStatSkipped (skipped s)) ;;
  s <- get_stats ;; logger INFO (MsgStatFailed (failed s)) ;;
  s <- get_stats ;; logger INFO (MsgStatDeleted (deleted s)) ;;
  s <- get_stats ;; logger INFO (MsgStatTotalBytes (total_bytes s)) ;;
  logger INFO MsgRule.

(** The thread pool with its collection loop. *)
Definition run_pool (files : list string) (dry_run : bool)
    : M (Remote:=Remote) unit :=
  futures <- submit_all files dry_run ;;
  as_completed_loop futures.

Definition run_backup (dry_run : bool) : M (Remote:=Remote) bool :=
  logger INFO MsgRule ;;
  logger INFO MsgStart ;;
  when dry_run (logger INFO MsgDryRunMode) ;;
  logger INFO (MsgEndpoint (s3_endpoint config)) ;;
  logger INFO (MsgBucket (s3_bucket config)) ;;
  logger INFO MsgRule ;;
  files <- get_files_for_backup ;;
  match files with
  | [] =>
      logger INFO MsgNoFiles ;;
      ret true
  | _ =>
      logger INFO (MsgFound (Z.of_nat (length files))) ;;
      total_size <- sum_sizes files ;;
      logger INFO (MsgTotalSize total_size) ;;
      run_pool files dry_run ;;
      log_statistics ;;
      s <- get_stats ;;
      ret (failed s =? 0)%Z
  end.

End Program.

(** ** Start-up: [load_config] and [main] *)

Module PyText.

(** [a.isspace()]; a character of a string is a code point below 256.
    White space there: tab to carriage return, the four separators 28 to
    31, the space, the next-line control 133 and the no-break space 160. *)
Definition isspace (a : ascii) : bool :=
  let n := Z.of_N (N_of_ascii a) in
  (((9 <=? n) && (n <=? 13)) || ((28 <=? n) && (n <=? 32))
   || (n =? 133) || (n =? 160))%Z.

(** [s.lstrip()], [s.rstrip()] and [s.strip()] without argument. *)
Fixpoint lstrip (s : string) : string :=
  match s with
  | EmptyString => EmptyString
  | String a s' => if isspace a then lstrip s' else s
  end.

Fixpoint rstrip (s : string) : string :=
  match s with
  | EmptyString => EmptyString
  | String a s' =>
      match rstrip s' with
      | EmptyString => if isspace a then EmptyString else String a EmptyString
      | r => String a r
      end
  end.

Definition strip (s : string) : string := rstrip (lstrip s).

(** [s.split(c)] for a one-character separator [c]. *)
Fixpoint split (c : ascii) (s : string) : list string :=
  match s with
  | EmptyString => [EmptyString]
  | String a s' =>
      if Ascii.eqb a c then EmptyString :: split c s'
      else match split c s' with
           | piece :: pieces => String a piece :: pieces
           | [] => [String a EmptyString]
           end
  end.

(** [sep.join(l)] *)
Fixpoint join (sep : string) (l : list string) : string :=
  match l with
  | [] => EmptyString
  | [x] => x
  | x :: rest => (x ++ sep ++ join sep rest)%string
  end.

End PyText.

(** What [load_config] can fail with: [FileNotFoundError], an error of
    [configparser] while reading, [KeyError] for a section or an option,
    [ValueError] for a value that [getint] or [getboolean] cannot convert. *)
Inductive ConfigError : Type :=
| ConfigFileNotFound
| ConfigUnreadable
| NoSection (name : string)
| NoOption (name : string)
| BadValue (name value : string).

Inductive Loaded (A : Type) : Type :=
| Config_ok (a : A)
| Config_error (err : ConfigError).
Arguments Config_ok {A} a.
Arguments Config_error {A} err.

Definition loaded_bind {A B} (m : Loaded A) (k : A -> Loaded B) : Loaded B :=
  match m with
  | Config_ok a => k a
  | Config_error err => Config_error err
  end.

Notation "x <~ m ;; k" := (loaded_bind m (fun x => k))
  (at level 100, m at next level, k at level 200, right associativity) : backup_scope.

(** The file at [config_path]: absent, rejected by [ConfigParser.read], or
    read into sections of options. *)
Inductive ConfigFile : Type :=
| Absent
| Unparsable
| Parsed (sections : gmap string (gmap string string)).



Section Startup.
Context {Remote : Type} {hashlib : Hashlib}.

(** The conversions of the standard library: [int(value)], the boolean
    conversion of [configparser], and the normalisation done by [Path(...)];
    [_create_s3_client], which builds the boto3 client from the
    configuration. *)
Context (py_int : string -> option Z).
Context (convert_to_boolean : string -> option bool).
Context (Path : string -> string).
Context (_create_s3_client : BackupConfig -> Result (S3Client Remote)).

(** [config[name]] *)
Definition getitem_section (config : gmap string (gmap string string))
    (name : string) : Loaded (gmap string string) :=
  match config !! name with
  | Some section => Config_ok section
  | None => Config_error (NoSection name)
  end.

(** [section[name]] *)
Definition getitem_option (section : gmap string string) (name : string)
    : Loaded string :=
  match section !! name with
  | Some value => Config_ok value
  | None => Config_error (NoOption name)
  end.

(** [section.get(name, fallback)] *)
Definition section_get (section : gmap string string) (name fallback : string)
    : string :=
  default fallback (section !! name).

(** [section.getint(name, fallback)] *)
Definition section_getint (section : gmap string string) (name : string)
    (fallback : Z) : Loaded Z :=
  match section !! name with
  | None => Config_ok fallback
  | Some value =>
      match py_int value with
      | Some n => Config_ok n
      | None => Config_error (BadValue name value)
      end
  end.

(** [section.getboolean(name, fallback)] *)
Definition section_getboolean (section : gmap string string) (name : string)
    (fallback : bool) : Loaded bool :=
  match section !! name with
  | None => Config_ok fallback
  | Some value =>
      match convert_to_boolean value with
      | Some b => Config_ok b
      | None => Config_error (BadValue name value)
      end
  end.

(** [tuple(ext.strip() for ext in value.split(','))] *)
Definition parse_extensions (value : string) : list string :=
  map PyText.strip (PyText.split ","%char value).

Definition load_config (config_file : ConfigFile) : Loaded BackupConfig :=
  match config_file with
  | Absent => Config_error ConfigFileNotFound
  | Unparsable => Config_error ConfigUnreadable
  | Parsed config =>
      s3_section <~ getitem_section config "s3" ;;
      backup_section <~ getitem_section config "backup" ;;
      directory <~ getitem_option backup_section "directory" ;;
      extensions <~ getitem_option backup_section "extensions" ;;
      day_delta <~ section_getint backup_section "day_delta" 3 ;;
      endpoint <~ getitem_option s3_section "endpoint" ;;
      bucket <~ getitem_option s3_section "bucket" ;;
      access_key <~ getitem_option s3_section "access_key" ;;
      secret_key <~ getitem_option s3_section "secret_key" ;;
      let region := section_get s3_section "region" "ru-1" in
      verify_ssl <~ section_getboolean s3_section "verify_ssl" true ;;
      delete_after_upload <~
        section_getboolean backup_section "delete_after_upload" true ;;
      max_workers <~ section_getint backup_section "max_workers" 3 ;;
      multipart_threshold <~
        section_getint backup_section "multipart_threshold" (100 * 1024 * 1024) ;;
      max_retries <~ section_getint backup_section "max_retries" 3 ;;
      Config_ok {| backup_dir := Path directory;
                   backup_extensions := parse_extensions extensions;
                   day_delta := day_delta;
                   s3_endpoint := endpoint;
                   s3_bucket := bucket;
                   s3_access_key := access_key;
                   s3_secret_key := secret_key;
                   s3_region := region;
                   verify_ssl := verify_ssl;
                   delete_after_upload := delete_after_upload;
                   max_workers := max_workers;
                   multipart_threshold := multipart_threshold;
                   max_retries := max_retries |}
  end.


End Startup.

(** ** A store in memory and a checksum, to run the program on *)

Module Sim.

(** A 32-bit polynomial checksum standing in for MD5: same interface,
    incremental by construction. *)
Definition hex_digit (n : Z) : ascii :=
  if (n <? 10)%Z then ascii_of_nat (Z.to_nat (48 + n))
  else ascii_of_nat (Z.to_nat (87 + n)).

Fixpoint hex (digits : nat) (n : Z) (acc : string) : string :=
  match digits with
  | O => acc
  | S d => hex d (n / 16) (String (hex_digit (n mod 16)) acc)
  end.

Definition checksum_step (h : Z) (b : byte) : Z :=
  ((h * 31 + Z.of_N (Byte.to_N b)) mod 4294967296)%Z.

#[global] Instance checksum : Hashlib := {|
  hash_state := Z;
  hashlib_new := fun _ => 7%Z;
  hash_update := fun h bs => fold_left checksum_step bs h;
  hexdigest := fun h => hex 8 h EmptyString
|}.

Definition digest (bs : list byte) : string :=
  hexdigest (hash_update (hashlib_new "md5") bs).

(** What the store answers with. *)
Inductive Mode : Type :=
| Healthy          (* every request is served *)
| UploadFails      (* uploads are refused *)
| Corrupts         (* uploads store a body whose bytes are all zero *)
| HeadFails        (* metadata requests are refused with code 500 *)
| DeleteFails.     (* deletions are refused *)

Record Object : Type := {
  body : list byte;
  etag : string;
  metadata : ExtraArgs
}.

Record Store : Type := {
  objects : gmap string Object;
  mode : Mode
}.

Definition quoted (s : string) : string :=
  String PyStr.dquote (s ++ String PyStr.dquote EmptyString)%string.

Definition sim_head_object (r : Store) (bucket key : string) : Result Response :=
  match mode r with
  | HeadFails => Raise (ClientError "500")
  | _ =>
      match objects r !! key with
      | Some o => Ok {| ETag := Some (quoted (etag o));
                        ContentLength := Some (Z.of_nat (length (body o))) |}
      | None => Raise (ClientError "404")
      end
  end.

(** Files above the multipart threshold get a composite etag. *)
Definition sim_upload_file (r : Store) (local : option File)
    (filename bucket key : string) (extra : ExtraArgs) (cfg : TransferConfig)
    : Store * Result unit :=
  match mode r, local with
  | UploadFails, _ => (r, Raise (S3UploadFailedError filename))
  | _, None => (r, Raise (FileNotFoundError filename))
  | m, Some f =>
      let stored :=
        match m with
        | Corrupts => map (fun _ => x00) (data f)
        | _ => data f
        end in
      let tag :=
        if (tc_multipart_threshold cfg <=? st_size f)%Z
        then (digest stored ++ "-2")%string else digest stored in
      ({| objects := <[key := {| body := stored; etag := tag;
                                 metadata := extra |}]> (objects r);
          mode := m |}, Ok tt)
  end.

Definition sim_delete_object (r : Store) (bucket key : string)
    : Store * Result unit :=
  match mode r with
  | DeleteFails => (r, Raise (ClientError "AccessDenied"))
  | m => ({| objects := delete key (objects r); mode := m |}, Ok tt)
  end.

Definition client : S3Client Store := {|
  head_object := sim_head_object;
  upload_file := sim_upload_file;
  delete_object := sim_delete_object
|}.

Definition config (delete_local : bool) : BackupConfig := {|
  backup_dir := "/var/db_backup";
  backup_extensions := [".7z"; ".gz"; ".zip"];
  day_delta := 3;
  s3_endpoint := "https://storage.example";
  s3_bucket := "backup";
  s3_access_key := "ak";
  s3_secret_key := "sk";
  s3_region := "ru-1";
  verify_ssl := true;
  delete_after_upload := delete_local;
  max_workers := 3;
  multipart_threshold := 104857600;
  max_retries := 3
|}.

Definition file (bytes : list byte) (ctime : Z) : File :=
  {| data := bytes; st_ctime := ctime; is_file := true |}.

Definition world (dir : option Directory) (objs : gmap string Object)
    (m : Mode) (now : Z) : World Store :=
  {| fs := dir; remote := {| objects := objs; mode := m |};
     stats := stats0; log := []; calls := []; clock := now |}.

(** One archive in the directory. *)
Definition archive : File := file [x01; x02; x03] 1000.

Definition one_file (can_delete : bool) : option Directory :=
  Some {| entries := {[ "db.zip" := archive ]}; writable := can_delete |}.

(** The archive as a healthy store keeps it. *)
Definition stored_archive : Object :=
  {| body := data archive; etag := digest (data archive);
     metadata := {| StorageClass := "STANDARD";
                    original_path := "/var/db_backup/db.zip";
                    upload_date := 1500 |} |}.

(** The archive is in the directory and nothing is in the bucket. *)
Definition fresh (can_delete : bool) (m : Mode) : World Store :=
  world (one_file can_delete) ∅ m 2000.

(** The archive is in the directory and in the bucket. *)
Definition backed_up : World Store :=
  world (one_file true) {[ "db.zip" := stored_archive ]} Healthy 2000.

(** The world that a first run without [delete_after_upload] leaves. *)
Definition after_first_run : World Store :=
  snd (run_backup client (config false) false (fresh true Healthy)).

(** Decimal numerals for [int(value)], and the lower-case words that
    [configparser] reads as booleans. *)
Definition digit (a : ascii) : option Z :=
  let n := Z.of_N (N_of_ascii a) in
  if ((48 <=? n) && (n <=? 57))%Z then Some (n - 48)%Z else None.

Fixpoint decimal (acc : Z) (s : string) : option Z :=
  match s with
  | EmptyString => Some acc
  | String a s' =>
      match digit a with
      | Some d => decimal (acc * 10 + d) s'
      | None => None
      end
  end.

Definition parse_int (s : string) : option Z :=
  match s with
  | EmptyString => None
  | _ => decimal 0 s
  end.

Definition parse_boolean (s : string) : option bool :=
  if PyStr.mem s ["1"; "yes"; "true"; "on"] then Some true
  else if PyStr.mem s ["0"; "no"; "false"; "off"] then Some false
  else None.

(** A configuration file with the required options only. *)
Definition minimal_ini : gmap string (gmap string string) :=
  {[ "s3" := {[ "endpoint" := "https://storage.example";
                "bucket" := "backup";
                "access_key" := "ak";
                "secret_key" := "sk" ]};
     "backup" := {[ "directory" := "/var/db_backup";
                    "extensions" := ".7z, .gz, .zip" ]} ]}.


(** A file of more than one chunk, alone in its directory. *)
Definition big : File := file (replicate (Z.to_nat 9000) x01) 1000.

Definition with_big : World Store :=
  world (Some {| entries := {[ "big.bin" := big ]}; writable := true |})
        ∅ Healthy 2000.

(** No backup directory. *)
Definition without_directory : World Store := world None ∅ Healthy 2000.

(** The directory of [fresh]. *)
Definition directory : Directory :=
  {| entries := {[ "db.zip" := archive ]}; writable := true |}.

End Sim.

(** * Properties *)

(** ** Vocabulary *)

Section Vocabulary.
Context {Remote : Type} (s3_client : S3Client Remote) {hashlib : Hashlib}.
Context (config : BackupConfig).

(** [m] never changes the component [proj] of the world, whether it
    returns or raises. *)
Definition preserves {X A} (proj : World Remote -> X) (m : M (Remote:=Remote) A)
    : Prop :=
  forall w, proj (snd (m w)) = proj w.

(** [m] never raises. *)
Definition total {A} (m : M (Remote:=Remote) A) : Prop :=
  forall w, exists a, fst (m w) = Ok a.

(** The components that logging does not touch. *)
Inductive log_free {X} : (World Remote -> X) -> Prop :=
| log_free_intro (proj : World Remote -> X) :
    (forall r w, proj (add_log r w) = proj w) -> log_free proj.

(** [m] keeps the property [I] of the statistics, whether it returns or
    raises. *)
Definition maintains {A} (I : Stats -> Prop) (m : M (Remote:=Remote) A) : Prop :=
  forall w, I (stats w) -> I (stats (snd (m w))).

(** Every request that [m] sends to the client satisfies [P]. *)
Definition requests {A} (P : Call -> Prop) (m : M (Remote:=Remote) A) : Prop :=
  forall w, exists cs, calls (snd (m w)) = calls w ++ cs /\ Forall P cs.

(** The world after the existence check that found nothing. *)
Definition checked (s3_key : string) (w : World Remote) : World Remote :=
  add_call (HeadObject (s3_bucket config) s3_key) w.

(** The world in which the upload of a file of [file_size] bytes starts. *)
Definition upload_start (s3_key : string) (file_size : Z) (w : World Remote)
    : World Remote :=
  add_log (INFO, MsgUploading s3_key file_size) (checked s3_key w).

(** The part of the [try] block after the existence check, when the key
    is absent and the run is not a simulation. *)
Definition transfer (file_path s3_key : string) (file_size : Z)
    : M (Remote:=Remote) bool :=
  logger INFO (MsgUploading s3_key file_size) ;;
  upload_call s3_client config file_path s3_key ;;
  verified <- _verify_upload s3_client config file_path s3_key ;;
  if negb verified then
    logger ERROR (MsgVerifyFailed s3_key) ;;
    s3_delete_object s3_client (s3_bucket config) s3_key ;;
    ret false
  else
    logger INFO (MsgUploaded s3_key) ;;
    stats_uploaded_add 1 ;;
    stats_total_bytes_add file_size ;;
    when (delete_after_upload config)
      (path_unlink file_path ;;
       stats_deleted_add 1 ;;
       logger INFO (MsgDeletedLocal (path_str config file_path))) ;;
    ret true.

(** The circumstances in which the worker removes the local file [f]:
    a real run with [delete_after_upload] set, the key absent from the
    bucket, the upload returned, the verification answered [True], and
    the directory lets the entry go. *)
Definition deletes_local (file_path : string) (f : File) (dry_run : bool)
    (w : World Remote) : Prop :=
  dry_run = false /\
  delete_after_upload config = true /\
  head_object s3_client (remote w) (s3_bucket config) file_path
  = Raise (ClientError "404") /\
  (exists w1 w2,
      upload_call s3_client config file_path file_path
        (upload_start file_path (st_size f) w) = (Ok tt, w1) /\
      _verify_upload s3_client config file_path file_path w1 = (Ok true, w2)) /\
  (exists dir, fs w = Some dir /\ writable dir = true).

(** [s'] is [s] with the given amounts added to the five counters. *)
Definition bumped (s s' : Stats) (du ds df dd tb : Z) : Prop :=
  uploaded s' = uploaded s + du /\
  skipped s' = skipped s + ds /\
  failed s' = failed s + df /\
  deleted s' = deleted s + dd /\
  total_bytes s' = total_bytes s + tb.

(** The size that the worker reads before its [try] block. *)
Definition size_of (file_path : string) (w : World Remote) : Z :=
  match lookup_file (fs w) file_path with
  | Some f => st_size f
  | None => 0
  end.

(** The files that a pool run counts as uploaded, each with the size read
    by its worker, in the order of the schedule. *)
Fixpoint counted_uploaded (files : list string) (dry_run : bool)
    (w : World Remote) : list (string * Z) :=
  match files with
  | [] => []
  | file_path :: rest =>
      let w' := snd (_upload_file s3_client config file_path dry_run w) in
      (if (uploaded (stats w') =? uploaded (stats w) + 1)%Z
       then [(file_path, size_of file_path w)] else [])
      ++ counted_uploaded rest dry_run w'
  end.

Definition total_size (l : list (string * Z)) : Z :=
  fold_right (fun e acc => snd e + acc) 0 l.

(** The request that the worker of [file_path] sends to upload it at time
    [date]. *)
Definition upload_request (file_path s3_key : string) (date : Z) : Call :=
  UploadFile (path_str config file_path) (s3_bucket config) s3_key
    {| StorageClass := "STANDARD";
       original_path := path_str config file_path;
       upload_date := date |}
    {| tc_multipart_threshold := multipart_threshold config;
       tc_max_concurrency := 10;
       tc_use_threads := true |}.

(** The requests of one worker, in their order: existence check, upload,
    verification, removal of a copy that failed verification. *)
Definition worker_requests (file_path : string) (date : Z) : list Call :=
  [HeadObject (s3_bucket config) file_path;
   upload_request file_path file_path date;
   HeadObject (s3_bucket config) file_path;
   DeleteObject (s3_bucket config) file_path].

(** The world after the opening lines of [run_backup]. *)
Definition announced (dry_run : bool) (w : World Remote) : World Remote :=
  let w1 := add_log (INFO, MsgStart) (add_log (INFO, MsgRule) w) in
  let w2 := if dry_run then add_log (INFO, MsgDryRunMode) w1 else w1 in
  add_log (INFO, MsgRule)
    (add_log (INFO, MsgBucket (s3_bucket config))
       (add_log (INFO, MsgEndpoint (s3_endpoint config)) w2)).

(** The [st_ctime] of the entry [name] of the directory. *)
Definition ctime_of (dir : Directory) (name : string) : Z :=
  match entries dir !! name with
  | Some f => st_ctime f
  | None => 0
  end.

(** *** The limits of the library *)

(** The instants that a [datetime] holds, in microseconds from the epoch of
    the time stamps: 0001-01-01 00:00:00 is 719162 days before it,
    9999-12-31 23:59:59.999999 is the last microsecond of the 2932897 days
    after it.  Outside of them [datetime.fromtimestamp] and the subtraction
    of line 269 raise [OverflowError]. *)
Definition datetime_min : Z := - (719162 * day_us).
Definition datetime_max : Z := 2932897 * day_us - 1.

Definition representable (t : Z) : Prop :=
  datetime_min <= t <= datetime_max.

(** [timedelta(days=n)] raises [OverflowError] beyond this number of days. *)
Definition timedelta_max_days : Z := 999999999.

(** Line 269 computes its cutoff: [timedelta(days=day_delta)] exists, and
    taking it from [datetime.now()] gives a [datetime]. *)
Definition cutoff_representable (w : World Remote) : Prop :=
  - timedelta_max_days <= day_delta config <= timedelta_max_days /\
  representable (clock w) /\
  representable (clock w - day_delta config * day_us).

(** Line 275 converts the time stamp of every entry that it looks at. *)
Definition ctimes_representable (dir : Directory) : Prop :=
  map_Forall (fun _ f => representable (st_ctime f)) (entries dir).

(** The configurations and worlds in which the library calls of
    [run_backup] accept their arguments: [ThreadPoolExecutor] raises
    [ValueError] unless [max_workers] is positive, and the dates of
    [get_files_for_backup] have to be representable. *)
Definition within_limits (w : World Remote) : Prop :=
  0 < max_workers config /\
  forall dir, fs w = Some dir ->
              cutoff_representable w /\ ctimes_representable dir.

(** No value of the file has a percent sign, so that the interpolation that
    [ConfigParser] applies to every value read leaves each one as it is
    written. *)
Definition percent : ascii := "%"%char.

Definition interpolation_free (config_file : ConfigFile) : bool :=
  match config_file with
  | Parsed sections =>
      forallb (fun section : string * gmap string string =>
                 forallb (fun option : string * string =>
                            negb (PyStr.contains percent (snd option)))
                         (map_to_list (snd section)))
              (map_to_list sections)
  | _ => true
  end.

End Vocabulary.

(** ** Frame rules: what a computation leaves untouched *)

Section Frame.
Context {Remote : Type}.

Abbreviation preserves := (preserves (Remote:=Remote)).
Abbreviation total := (total (Remote:=Remote)).
Abbreviation maintains := (maintains (Remote:=Remote)).

Lemma preserves_ret {X A} (proj : World Remote -> X) (a : A) :
  preserves proj (ret a).
Proof. intros w. reflexivity. Qed.

Lemma preserves_raise {X A} (proj : World Remote -> X) e :
  preserves proj (raise (A:=A) e).
Proof. intros w. reflexivity. Qed.

Lemma preserves_bind {X A B} (proj : World Remote -> X)
    (m : M A) (k : A -> M B) :
  preserves proj m -> (forall a, preserves proj (k a)) ->
  preserves proj (bind m k).
Proof.
  intros Hm Hk w. unfold bind. specialize (Hm w).
  destruct (m w) as [[a|e] w']; simpl in *.
  - rewrite Hk. exact Hm.
  - exact Hm.
Qed.

Lemma preserves_try_except {X A} (proj : World Remote -> X)
    (m : M A) (h : Exception -> M A) :
  preserves proj m -> (forall e, preserves proj (h e)) ->
  preserves proj (try_except m h).
Proof.
  intros Hm Hh w. unfold try_except. specialize (Hm w).
  destruct (m w) as [[a|e] w']; simpl in *.
  - exact Hm.
  - rewrite Hh. exact Hm.
Qed.

Lemma preserves_when {X} (proj : World Remote -> X) b (m : M unit) :
  preserves proj m -> preserves proj (when b m).
Proof. destruct b; simpl; auto using preserves_ret. Qed.

Lemma preserves_logger {X} (proj : World Remote -> X) lvl msg :
  log_free proj -> preserves proj (logger lvl msg).
Proof. intros [p Hp] w. simpl. apply Hp. Qed.

Lemma preserves_datetime_now {X} (proj : World Remote -> X) :
  preserves proj datetime_now.
Proof. intros w. reflexivity. Qed.

Lemma preserves_path_stat {X} (proj : World Remote -> X) name :
  preserves proj (path_stat name).
Proof. intros w. unfold path_stat. destruct (lookup_file _ _); reflexivity. Qed.

Lemma preserves_open_rb {X} (proj : World Remote -> X) name :
  preserves proj (open_rb name).
Proof. intros w. unfold open_rb. destruct (lookup_file _ _); reflexivity. Qed.

Lemma log_free_fs : log_free (fs (Remote:=Remote)).
Proof. constructor. reflexivity. Qed.
Lemma log_free_remote : log_free (remote (Remote:=Remote)).
Proof. constructor. reflexivity. Qed.
Lemma log_free_stats : log_free (stats (Remote:=Remote)).
Proof. constructor. reflexivity. Qed.
Lemma log_free_calls : log_free (calls (Remote:=Remote)).
Proof. constructor. reflexivity. Qed.
Lemma log_free_clock : log_free (clock (Remote:=Remote)).
Proof. constructor. reflexivity. Qed.

Lemma maintains_of_preserves {A} (I : Stats -> Prop) (m : M A) :
  preserves stats m -> maintains I m.
Proof. intros H w HI. rewrite H. exact HI. Qed.

Lemma maintains_bind {A B} (I : Stats -> Prop) (m : M A) (k : A -> M B) :
  maintains I m -> (forall a, maintains I (k a)) -> maintains I (bind m k).
Proof.
  intros Hm Hk w HI. unfold bind. specialize (Hm w HI).
  destruct (m w) as [[a|e] w']; cbn in *.
  - by apply Hk.
  - exact Hm.
Qed.

Lemma total_ret {A} (a : A) : total (ret a).
Proof. intros w. exists a. reflexivity. Qed.

Lemma total_logger lvl msg : total (logger lvl msg).
Proof. intros w. exists tt. reflexivity. Qed.

Lemma total_bind {A B} (m : M A) (k : A -> M B) :
  total m -> (forall a, total (k a)) -> total (bind m k).
Proof.
  intros Hm Hk w. unfold bind. destruct (Hm w) as [a Ha].
  destruct (m w) as [[a'|e] w']; simpl in *; [|discriminate].
  apply Hk.
Qed.

Lemma total_try_except {A} (m : M A) (h : Exception -> M A) :
  (forall e, total (h e)) -> total (try_except m h).
Proof.
  intros Hh w. unfold try_except.
  destruct (m w) as [[a|e] w']; simpl; [eauto | apply Hh].
Qed.

Lemma total_when b (m : M unit) : total m -> total (when b m).
Proof. destruct b; simpl; auto using total_ret. Qed.

End Frame.

Create HintDb frame discriminated.
#[export] Hint Resolve preserves_ret preserves_raise preserves_bind
  preserves_try_except preserves_when preserves_logger preserves_datetime_now
  preserves_path_stat preserves_open_rb
  log_free_fs log_free_remote log_free_stats log_free_calls log_free_clock
  total_ret total_logger total_bind total_try_except total_when : frame.

(** ** Requests issued by a computation *)

Section Requests.
Context {Remote : Type}.

Abbreviation preserves := (preserves (Remote:=Remote)).
Abbreviation requests := (requests (Remote:=Remote)).

Lemma requests_none {A} (P : Call -> Prop) (m : M A) :
  preserves calls m -> requests P m.
Proof. intros H w. exists []. rewrite H, app_nil_r. auto. Qed.

Lemma requests_bind {A B} (P : Call -> Prop) (m : M A) (k : A -> M B) :
  requests P m -> (forall a, requests P (k a)) -> requests P (bind m k).
Proof.
  intros Hm Hk w. unfold bind. destruct (Hm w) as (cs & Hcs & HP).
  destruct (m w) as [[a|e] w']; simpl in *.
  - destruct (Hk a w') as (cs' & Hcs' & HP').
    exists (cs ++ cs'). rewrite Hcs', Hcs, app_assoc. split; [done|].
    apply Forall_app; auto.
  - eauto.
Qed.

Lemma requests_try_except {A} (P : Call -> Prop) (m : M A) h :
  requests P m -> (forall e, requests P (h e)) -> requests P (try_except m h).
Proof.
  intros Hm Hh w. unfold try_except. destruct (Hm w) as (cs & Hcs & HP).
  destruct (m w) as [[a|e] w']; simpl in *.
  - eauto.
  - destruct (Hh e w') as (cs' & Hcs' & HP').
    exists (cs ++ cs'). rewrite Hcs', Hcs, app_assoc. split; [done|].
    apply Forall_app; auto.
Qed.

Lemma requests_weaken {A} (P Q : Call -> Prop) (m : M A) :
  (forall c, P c -> Q c) -> requests P m -> requests Q m.
Proof.
  intros HPQ Hm w. destruct (Hm w) as (cs & Hcs & HP).
  exists cs. split; [done|]. eapply Forall_impl; eauto.
Qed.

End Requests.

#[export] Hint Resolve requests_bind requests_try_except : frame.

(** ** The pieces of the program, one by one *)

Section Pieces.
Context {Remote : Type} (s3_client : S3Client Remote) {hashlib : Hashlib}.
Context (config : BackupConfig).

Abbreviation bucket := (s3_bucket config).
Abbreviation preserves := (preserves (Remote:=Remote)).
Abbreviation requests := (requests (Remote:=Remote)).
Abbreviation total := (total (Remote:=Remote)).

(** The primitive operations are settled by unfolding and case analysis. *)
Ltac by_cases :=
  intros w; cbv beta zeta delta
    [stats_uploaded_add stats_skipped_add stats_failed_add stats_deleted_add
     stats_total_bytes_add s3_head_object s3_upload_file s3_delete_object
     path_unlink getitem_ETag getitem_ContentLength get_stats ret raise
     future_result executor_submit];
  repeat match goal with
         | |- context [match ?x with _ => _ end] => destruct x
         | |- context [if ?x then _ else _] => destruct x
         end; reflexivity.

Lemma stats_add_fs n :
  preserves fs (stats_uploaded_add n) /\ preserves fs (stats_skipped_add n) /\
  preserves fs (stats_failed_add n) /\ preserves fs (stats_deleted_add n) /\
  preserves fs (stats_total_bytes_add n).
Proof. repeat split; by_cases. Qed.

Lemma stats_add_remote n :
  preserves remote (stats_uploaded_add n) /\
  preserves remote (stats_skipped_add n) /\
  preserves remote (stats_failed_add n) /\
  preserves remote (stats_deleted_add n) /\
  preserves remote (stats_total_bytes_add n).
Proof. repeat split; by_cases. Qed.

Lemma stats_add_calls n :
  preserves calls (stats_uploaded_add n) /\
  preserves calls (stats_skipped_add n) /\
  preserves calls (stats_failed_add n) /\
  preserves calls (stats_deleted_add n) /\
  preserves calls (stats_total_bytes_add n).
Proof. repeat split; by_cases. Qed.

Lemma head_object_frame bucket' key :
  preserves fs (s3_head_object s3_client bucket' key) /\
  preserves remote (s3_head_object s3_client bucket' key) /\
  preserves stats (s3_head_object s3_client bucket' key) /\
  preserves log (s3_head_object s3_client bucket' key).
Proof. repeat split; by_cases. Qed.

Lemma upload_file_frame file_path bucket' key extra cfg :
  preserves fs (s3_upload_file s3_client config file_path bucket' key extra cfg) /\
  preserves stats (s3_upload_file s3_client config file_path bucket' key extra cfg) /\
  preserves log (s3_upload_file s3_client config file_path bucket' key extra cfg).
Proof. repeat split; by_cases. Qed.

Lemma delete_object_frame bucket' key :
  preserves fs (s3_delete_object s3_client bucket' key) /\
  preserves stats (s3_delete_object s3_client bucket' key) /\
  preserves log (s3_delete_object s3_client bucket' key).
Proof. repeat split; by_cases. Qed.

Lemma path_unlink_frame name :
  preserves remote (path_unlink name) /\
  preserves stats (path_unlink name) /\
  preserves calls (path_unlink name) /\
  preserves log (path_unlink name).
Proof. repeat split; by_cases. Qed.

Lemma getitem_frame {X} (proj : World Remote -> X) response :
  preserves proj (getitem_ETag response) /\
  preserves proj (getitem_ContentLength response).
Proof. split; by_cases. Qed.

Lemma get_stats_frame {X} (proj : World Remote -> X) :
  preserves proj get_stats.
Proof. by_cases. Qed.

Lemma future_result_frame {X A} (proj : World Remote -> X) (future : Result A) :
  preserves proj (future_result future).
Proof. by_cases. Qed.

Lemma head_object_requests bucket' key :
  requests (fun c => c = HeadObject bucket' key)
           (s3_head_object s3_client bucket' key).
Proof. intros w. exists [HeadObject bucket' key]. split; [reflexivity|]. auto. Qed.

(** [_calculate_file_hash] only reads. *)
Lemma calculate_file_hash_frame {X} (proj : World Remote -> X) file_path algorithm :
  preserves proj (_calculate_file_hash file_path algorithm).
Proof. unfold _calculate_file_hash. eauto with frame. Qed.

(** [_file_exists_in_s3] sends one metadata request and changes nothing
    but the log. *)
Lemma file_exists_preserves {X} (proj : World Remote -> X) key :
  log_free proj ->
  preserves proj (s3_head_object s3_client bucket key) ->
  preserves proj (_file_exists_in_s3 s3_client config key).
Proof.
  intros Hfree Hhead. unfold _file_exists_in_s3.
  apply preserves_try_except; [eauto with frame|].
  intros [code| | | | |]; eauto with frame.
  destruct (String.eqb code "404"); eauto with frame.
Qed.

Lemma file_exists_requests key :
  requests (fun c => c = HeadObject bucket key)
           (_file_exists_in_s3 s3_client config key).
Proof.
  unfold _file_exists_in_s3.
  apply requests_try_except.
  - apply requests_bind; [apply head_object_requests|].
    intros a. apply requests_none. eauto with frame.
  - intros e. apply requests_none.
    destruct e as [code| | | | |]; eauto with frame.
    destruct (String.eqb code "404"); eauto with frame.
Qed.

(** [_verify_upload] never raises: every exception ends in [return False]. *)
Lemma verify_upload_total file_path s3_key :
  total (_verify_upload s3_client config file_path s3_key).
Proof. unfold _verify_upload. eauto with frame. Qed.

Lemma verify_upload_preserves {X} (proj : World Remote -> X) file_path s3_key :
  log_free proj ->
  preserves proj (s3_head_object s3_client bucket s3_key) ->
  preserves proj (_verify_upload s3_client config file_path s3_key).
Proof.
  intros Hfree Hhead. unfold _verify_upload.
  apply preserves_try_except; [|eauto with frame].
  apply preserves_bind; [apply calculate_file_hash_frame|]. intros local_md5.
  apply preserves_bind; [exact Hhead|]. intros response.
  apply preserves_bind; [apply getitem_frame|]. intros etag.
  destruct (PyStr.contains _ _).
  - apply preserves_bind; [eauto with frame|]. intros st.
    apply preserves_bind; [apply getitem_frame|]. eauto with frame.
  - eauto with frame.
Qed.

Lemma upload_except_preserves {X} (proj : World Remote -> X) s3_key e :
  log_free proj ->
  preserves proj (stats_failed_add 1) ->
  preserves proj (upload_except s3_key e).
Proof.
  intros Hfree Hadd. unfold upload_except.
  destruct (is_ClientError e); eauto 10 with frame.
Qed.

(** In simulation mode the body of the worker stops after the existence
    check. *)
Lemma upload_body_dry_run_preserves {X} (proj : World Remote -> X)
    file_path s3_key file_size :
  log_free proj ->
  preserves proj (s3_head_object s3_client bucket s3_key) ->
  preserves proj (stats_skipped_add 1) ->
  preserves proj (upload_body s3_client config file_path s3_key file_size true).
Proof.
  intros Hfree Hhead Hskip. unfold upload_body.
  apply preserves_bind; [by apply file_exists_preserves|].
  intros [[|] s3_etag]; eauto 10 with frame.
Qed.

Lemma upload_file_dry_run_preserves {X} (proj : World Remote -> X) file_path :
  log_free proj ->
  preserves proj (s3_head_object s3_client bucket file_path) ->
  preserves proj (stats_skipped_add 1) ->
  preserves proj (stats_failed_add 1) ->
  preserves proj (_upload_file s3_client config file_path true).
Proof.
  intros Hfree Hhead Hskip Hfail. unfold _upload_file.
  apply preserves_bind; [eauto with frame|]. intros st.
  apply preserves_try_except.
  - by apply upload_body_dry_run_preserves.
  - intros e. by apply upload_except_preserves.
Qed.

Lemma upload_file_dry_run_requests file_path :
  requests (fun c => c = HeadObject bucket file_path)
           (_upload_file s3_client config file_path true).
Proof.
  unfold _upload_file.
  apply requests_bind; [apply requests_none; eauto with frame|]. intros st.
  apply requests_try_except.
  - unfold upload_body.
    apply requests_bind; [apply file_exists_requests|].
    intros [[|] s3_etag]; apply requests_none;
      pose proof (stats_add_calls 1) as (_ & ? & _); eauto 10 with frame.
  - intros e. apply requests_none.
    pose proof (stats_add_calls 1) as (_ & _ & ? & _).
    apply upload_except_preserves; eauto with frame.
Qed.

(** *** The orchestrator *)

Lemma executor_submit_preserves {X A} (proj : World Remote -> X) (task : M A) :
  preserves proj task -> preserves proj (executor_submit task).
Proof.
  intros H w. specialize (H w). unfold executor_submit.
  destruct (task w). exact H.
Qed.

Lemma executor_submit_requests {A} P (task : M A) :
  requests P task -> requests P (executor_submit task).
Proof.
  intros H w. specialize (H w). unfold executor_submit.
  destruct (task w). exact H.
Qed.

Lemma executor_submit_total {A} (task : M A) : total (executor_submit task).
Proof. intros w. unfold executor_submit. destruct (task w). simpl. eauto. Qed.

Lemma submit_all_preserves {X} (proj : World Remote -> X) files dry_run :
  (forall file_path,
      preserves proj (_upload_file s3_client config file_path dry_run)) ->
  preserves proj (submit_all s3_client config files dry_run).
Proof.
  intros H. induction files as [|file_path rest IH]; simpl.
  - eauto with frame.
  - apply preserves_bind; [by apply executor_submit_preserves|].
    eauto with frame.
Qed.

Lemma submit_all_requests P files dry_run :
  (forall file_path,
      requests P (_upload_file s3_client config file_path dry_run)) ->
  requests P (submit_all s3_client config files dry_run).
Proof.
  intros H. induction files as [|file_path rest IH]; simpl.
  - apply requests_none. eauto with frame.
  - apply requests_bind; [by apply executor_submit_requests|].
    intros future. apply requests_bind; [exact IH|].
    intros futures. apply requests_none. eauto with frame.
Qed.

Lemma submit_all_total files dry_run :
  total (submit_all s3_client config files dry_run).
Proof.
  induction files as [|file_path rest IH]; simpl.
  - eauto with frame.
  - apply total_bind; [apply executor_submit_total|]. eauto with frame.
Qed.

(** The collection loop only writes to the log, and never raises. *)
Lemma as_completed_loop_preserves {X} (proj : World Remote -> X) futures :
  log_free proj -> preserves proj (as_completed_loop config futures).
Proof.
  intros Hfree. induction futures as [|[file_path future] rest IH]; simpl.
  - eauto with frame.
  - apply preserves_bind; [|auto].
    apply preserves_try_except; [|eauto with frame].
    apply preserves_bind; [apply future_result_frame | eauto with frame].
Qed.

Lemma as_completed_loop_total futures :
  total (as_completed_loop (Remote:=Remote) config futures).
Proof.
  induction futures as [|[file_path future] rest IH]; simpl.
  - eauto with frame.
  - apply total_bind; [|auto]. eauto with frame.
Qed.

Lemma get_files_for_backup_preserves {X} (proj : World Remote -> X) :
  log_free proj -> preserves proj (get_files_for_backup config).
Proof.
  intros [p Hp] w. unfold get_files_for_backup.
  destruct (fs w); simpl; [reflexivity | apply Hp].
Qed.

Lemma sum_sizes_preserves {X} (proj : World Remote -> X) files :
  preserves proj (sum_sizes files).
Proof. induction files; simpl; eauto with frame. Qed.

Lemma log_statistics_preserves {X} (proj : World Remote -> X) :
  log_free proj -> preserves proj log_statistics.
Proof.
  intros Hfree. unfold log_statistics.
  pose proof (get_stats_frame proj).
  repeat (apply preserves_bind; [eauto with frame|]; intros ?).
  eauto with frame.
Qed.

Lemma run_pool_preserves {X} (proj : World Remote -> X) files dry_run :
  log_free proj ->
  (forall file_path,
      preserves proj (_upload_file s3_client config file_path dry_run)) ->
  preserves proj (run_pool s3_client config files dry_run).
Proof.
  intros Hfree H. unfold run_pool.
  apply preserves_bind; [by apply submit_all_preserves|].
  intros futures. by apply as_completed_loop_preserves.
Qed.

Lemma run_pool_requests P files dry_run :
  (forall file_path,
      requests P (_upload_file s3_client config file_path dry_run)) ->
  requests P (run_pool s3_client config files dry_run).
Proof.
  intros H. unfold run_pool.
  apply requests_bind; [by apply submit_all_requests|].
  intros futures. apply requests_none.
  apply as_completed_loop_preserves. eauto with frame.
Qed.

Lemma run_backup_preserves {X} (proj : World Remote -> X) dry_run :
  log_free proj ->
  (forall file_path,
      preserves proj (_upload_file s3_client config file_path dry_run)) ->
  preserves proj (run_backup s3_client config dry_run).
Proof.
  intros Hfree H. unfold run_backup.
  pose proof (get_files_for_backup_preserves proj Hfree).
  pose proof (log_statistics_preserves proj Hfree).
  pose proof (get_stats_frame proj).
  pose proof (sum_sizes_preserves proj).
  pose proof (fun files => run_pool_preserves proj files dry_run Hfree H).
  repeat (apply preserves_bind; [eauto with frame|]; intros ?).
  match goal with
  | |- preserves _ (match ?files with _ => _ end) => destruct files
  end; [eauto with frame|].
  repeat (apply preserves_bind; [eauto with frame|]; intros ?).
  eauto with frame.
Qed.

Lemma run_backup_requests P dry_run :
  (forall file_path,
      requests P (_upload_file s3_client config file_path dry_run)) ->
  requests P (run_backup s3_client config dry_run).
Proof.
  intros H. unfold run_backup.
  assert (Hlog : forall lvl msg, requests P (logger lvl msg)).
  { intros. apply requests_none. eauto with frame. }
  pose proof (fun files => run_pool_requests P files dry_run H) as Hpool.
  repeat (apply requests_bind; [solve [apply Hlog
    | apply requests_none; eauto with frame
    | apply requests_none; apply get_files_for_backup_preserves;
      eauto with frame]|]; intros ?).
  match goal with
  | |- requests _ (match ?files with _ => _ end) => destruct files
  end.
  - apply requests_none. eauto with frame.
  - apply requests_bind; [apply Hlog|]. intros _.
    apply requests_bind; [apply requests_none, sum_sizes_preserves|]. intros ?.
    apply requests_bind; [apply Hlog|]. intros _.
    apply requests_bind; [apply Hpool|]. intros _.
    apply requests_none.
    apply preserves_bind; [apply log_statistics_preserves; eauto with frame|].
    intros _. pose proof (get_stats_frame calls). eauto with frame.
Qed.

End Pieces.

(** ** Simulation mode *)

Section DryRun.
Context {Remote : Type} (s3_client : S3Client Remote) {hashlib : Hashlib}.
Context (config : BackupConfig).

(** C9.  With [dry_run] set, a worker leaves the backup directory and the
    remote store as they were and sends the client at most metadata
    requests for its own key; so does a whole run: no [upload_file], no
    [delete_object], no [unlink]. *)
Theorem dry_run_reads_only :
  forall (w : World Remote),
    (forall file_path : string,
        let w' := snd (_upload_file s3_client config file_path true w) in
        fs w' = fs w /\ remote w' = remote w /\
        exists cs, calls w' = calls w ++ cs /\
                   Forall (fun c => c = HeadObject (s3_bucket config) file_path) cs)
    /\
    (let w' := snd (run_backup s3_client config true w) in
     fs w' = fs w /\ remote w' = remote w /\
     exists cs, calls w' = calls w ++ cs /\ Forall (fun c => is_head c = true) cs).
Proof.
  intros w.
  assert (Hfs : forall file_path,
             preserves fs (_upload_file s3_client config file_path true)).
  { intros file_path.
    pose proof (stats_add_fs (Remote:=Remote) 1) as (_ & ? & ? & _).
    pose proof (head_object_frame s3_client (s3_bucket config) file_path)
      as (? & _).
    apply upload_file_dry_run_preserves; eauto with frame. }
  assert (Hremote : forall file_path,
             preserves remote (_upload_file s3_client config file_path true)).
  { intros file_path.
    pose proof (stats_add_remote (Remote:=Remote) 1) as (_ & ? & ? & _).
    pose proof (head_object_frame s3_client (s3_bucket config) file_path)
      as (_ & ? & _).
    apply upload_file_dry_run_preserves; eauto with frame. }
  split.
  - intros file_path. cbv zeta.
    split; [apply Hfs|]. split; [apply Hremote|].
    apply upload_file_dry_run_requests.
  - cbv zeta.
    split; [apply run_backup_preserves; eauto with frame|].
    split; [apply run_backup_preserves; eauto with frame|].
    apply run_backup_requests. intros file_path.
    eapply requests_weaken; [|apply upload_file_dry_run_requests].
    intros c ->. reflexivity.
Qed.

End DryRun.

(** ** Who writes the statistics *)

Section Statistics.
Context {Remote : Type} (s3_client : S3Client Remote) {hashlib : Hashlib}.
Context (config : BackupConfig).


End Statistics.


(** ** Stripping quotes *)

Lemma contains_rev_app (c : ascii) (s1 s2 : string) :
  PyStr.contains c (String.rev_app s1 s2)
  = PyStr.contains c s1 || PyStr.contains c s2.
Proof.
  revert s2. induction s1 as [|a s1 IH]; intros s2; simpl; [reflexivity|].
  rewrite IH. simpl. destruct (Ascii.eqb a c); simpl.
  - apply orb_true_r.
  - reflexivity.
Qed.

Lemma contains_rev (c : ascii) (s : string) :
  PyStr.contains c (String.rev s) = PyStr.contains c s.
Proof. unfold String.rev. rewrite contains_rev_app. simpl. apply orb_false_r. Qed.

Lemma contains_lstrip (c q : ascii) (s : string) :
  c <> q -> PyStr.contains c (PyStr.lstrip q s) = PyStr.contains c s.
Proof.
  intros Hne. induction s as [|a s IH]; simpl; [reflexivity|].
  destruct (Ascii.eqb a q) eqn:Haq; [|reflexivity].
  apply Ascii.eqb_eq in Haq. subst a.
  rewrite IH. destruct (Ascii.eqb q c) eqn:Hqc; [|reflexivity].
  apply Ascii.eqb_eq in Hqc. congruence.
Qed.

(** Stripping quotes neither adds nor removes a hyphen. *)
Lemma contains_strip (c q : ascii) (s : string) :
  c <> q -> PyStr.contains c (PyStr.strip q s) = PyStr.contains c s.
Proof.
  intros Hne. unfold PyStr.strip, PyStr.rstrip.
  rewrite contains_rev, contains_lstrip, contains_rev, contains_lstrip by done.
  reflexivity.
Qed.

(** ** The verifier *)

Section Verifier.
Context {Remote : Type} (s3_client : S3Client Remote) {hashlib : Hashlib}.
Context (config : BackupConfig).

(** A case that the path taken rules out. *)
Local Ltac other_path := intros; simplify_eq; congruence.

(** C4, as the code has it.  [_verify_upload] returns a boolean in every
    world and raises in none.  Whatever is raised inside it ends in the
    verdict [False] with the error logged: a local file that cannot be
    opened for hashing, a metadata request that the store or the transport
    refuses, an answer without [ETag], and, for a multipart etag, an answer
    without [ContentLength].  A verdict reached without an error logs no
    error: it logs one line of information when it is [True], and nothing
    when it is [False]. *)
Theorem verify_upload_never_raises :
  forall (file_path s3_key : string) (w : World Remote),
    let verdict := _verify_upload s3_client config file_path s3_key w in
    let asked := add_call (HeadObject (s3_bucket config) s3_key) w in
    let refused := fun (e : Exception) (w' : World Remote) =>
      (Ok false, add_log (ERROR, MsgVerifyError s3_key e) w') in
    (exists verified : bool, fst verdict = Ok verified) /\
    (forall e : Exception,
        head_object s3_client (remote w) (s3_bucket config) s3_key = Raise e ->
        fst verdict = Ok false) /\
    (lookup_file (fs w) file_path = None ->
     verdict = refused (FileNotFoundError file_path) w) /\
    (forall (f : File) (e : Exception),
        lookup_file (fs w) file_path = Some f ->
        is_file f = true ->
        head_object s3_client (remote w) (s3_bucket config) s3_key = Raise e ->
        verdict = refused e asked) /\
    (forall (f : File) (response : Response),
        lookup_file (fs w) file_path = Some f ->
        is_file f = true ->
        head_object s3_client (remote w) (s3_bucket config) s3_key = Ok response ->
        ETag response = None ->
        verdict = refused (KeyError "ETag") asked) /\
    (forall (f : File) (response : Response) (etag : string),
        lookup_file (fs w) file_path = Some f ->
        is_file f = true ->
        head_object s3_client (remote w) (s3_bucket config) s3_key = Ok response ->
        ETag response = Some etag ->
        PyStr.contains PyStr.hyphen etag = true ->
        ContentLength response = None ->
        verdict = refused (KeyError "ContentLength") asked) /\
    (forall (f : File) (response : Response) (etag : string),
        lookup_file (fs w) file_path = Some f ->
        is_file f = true ->
        head_object s3_client (remote w) (s3_bucket config) s3_key = Ok response ->
        ETag response = Some etag ->
        (PyStr.contains PyStr.hyphen etag = true ->
         is_Some (ContentLength response)) ->
        exists (verified : bool) (msg : Message),
          verdict = (Ok verified,
                     if verified then add_log (INFO, msg) asked else asked)).
Proof.
  intros file_path s3_key w verdict asked refused.
  split; [apply verify_upload_total|].
  subst verdict asked refused.
  cbv beta iota zeta delta [_verify_upload try_except bind
    _calculate_file_hash open_rb s3_head_object ret raise getitem_ETag
    getitem_ContentLength path_stat].
  destruct (lookup_file (fs w) file_path) as [f|] eqn:Hf.
  2: { split; [reflexivity|]. split; [reflexivity|].
       repeat (split; [other_path|]). other_path. }
  cbv beta iota.
  destruct (head_object s3_client (remote w) (s3_bucket config) s3_key)
    as [response|e] eqn:Hhead.
  2: { split; [reflexivity|]. split; [other_path|].
       split; [by intros ? ? _ _ [= <-]|].
       repeat (split; [other_path|]). other_path. }
  cbv beta iota.
  destruct (ETag response) as [etag|] eqn:Hetag.
  2: { do 3 (split; [other_path|]). split; [reflexivity|].
       split; other_path. }
  cbv beta iota.
  rewrite contains_strip by discriminate.
  destruct (PyStr.contains PyStr.hyphen etag) eqn:Hhyphen.
  - change (fs (add_call (HeadObject (s3_bucket config) s3_key) w)) with (fs w).
    rewrite Hf. cbv beta iota.
    destruct (ContentLength response) as [n|] eqn:Hlen.
    + do 5 (split; [other_path|]).
      intros _ _ _ _ _ _ _ _.
      exists (st_size f =? n)%Z, (MsgVerifiedSize s3_key (st_size f)).
      unfold when, logger, ret.
      destruct (st_size f =? n)%Z; reflexivity.
    + do 4 (split; [other_path|]). split; [reflexivity|].
      intros ? ? ? _ _ [= <-] Hetag' Hsome.
      rewrite Hetag in Hetag'. injection Hetag' as <-.
      destruct (Hsome Hhyphen) as (n & Hn). congruence.
  - do 5 (split; [other_path|]).
    intros _ _ _ _ _ _ _ _.
    set (local_md5 := hexdigest _).
    exists (String.eqb local_md5 (PyStr.strip PyStr.dquote etag)),
           (MsgVerifiedMD5 s3_key).
    unfold when, logger, ret.
    destruct (String.eqb _ _); reflexivity.
Qed.

End Verifier.

(** C4, as the spec has it, fails: with a store that refuses the metadata
    request, the error does not reach the caller. *)
Lemma verify_upload_swallows_store_error :
  ~ (forall (w : World Sim.Store) (file_path s3_key : string) (e : Exception),
        head_object Sim.client (remote w) (s3_bucket (Sim.config true)) s3_key
        = Raise e ->
        fst (_verify_upload Sim.client (Sim.config true) file_path s3_key w)
        = Raise e).
Proof.
  intros H.
  specialize (H (Sim.fresh true Sim.HeadFails)
                "db.zip" "db.zip" (ClientError "500") eq_refl).
  vm_compute in H. discriminate H.
Qed.

(** ** Hashing in chunks *)

Section Hashing.
Context {hashlib : Hashlib} {streaming : HashlibStreaming hashlib}.

Lemma chunk_size_pos : (0 < chunk_size)%nat.
Proof. unfold chunk_size. lia. Qed.

(** Reading in chunks of [chunk_size] bytes feeds the hash the whole file. *)
Lemma read_chunks_whole (rounds : nat) :
  forall (hash_func : hash_state) (rest : list byte),
    (length rest < rounds)%nat ->
    read_chunks rounds hash_func rest = hash_update hash_func rest.
Proof.
  induction rounds as [|n IH]; intros h rest Hlen; [lia|].
  simpl. pose proof chunk_size_pos as Hpos.
  destruct (take chunk_size rest) as [|b chunk] eqn:Htake.
  - destruct rest as [|b rest'].
    + symmetry. apply hash_update_nil.
    + destruct chunk_size; [lia | discriminate Htake].
  - rewrite IH.
    + rewrite hash_update_app, <- Htake, take_drop. reflexivity.
    + rewrite length_drop.
      assert (length rest <> 0)%nat by (destruct rest; [discriminate | simpl; lia]).
      lia.
Qed.

End Hashing.

Section VerifierDecision.
Context {Remote : Type} (s3_client : S3Client Remote).
Context {hashlib : Hashlib} {streaming : HashlibStreaming hashlib}.
Context (config : BackupConfig).

(** [_calculate_file_hash] returns the digest of the file's bytes. *)
Lemma calculate_file_hash_digest file_path algorithm (w : World Remote) f :
  lookup_file (fs w) file_path = Some f ->
  _calculate_file_hash file_path algorithm w
  = (Ok (hexdigest (hash_update (hashlib_new algorithm) (data f))), w).
Proof.
  intros Hf. unfold _calculate_file_hash, bind, open_rb, ret. rewrite Hf.
  rewrite read_chunks_whole by lia. reflexivity.
Qed.

(** C5.  Once the metadata of the object are fetched, the verdict is: for
    an etag with a hyphen, equality of the local size and the remote
    content length; for any other etag, equality of the local MD5 digest
    and the etag stripped of its quotes. *)
Theorem verify_upload_decision :
  forall (file_path s3_key : string) (w : World Remote)
         (f : File) (response : Response) (etag : string) (s3_size : Z),
    lookup_file (fs w) file_path = Some f ->
    head_object s3_client (remote w) (s3_bucket config) s3_key = Ok response ->
    ETag response = Some etag ->
    exists verified : bool,
      fst (_verify_upload s3_client config file_path s3_key w) = Ok verified /\
      (PyStr.contains PyStr.hyphen etag = true ->
       ContentLength response = Some s3_size ->
       (verified = true <-> st_size f = s3_size)) /\
      (PyStr.contains PyStr.hyphen etag = false ->
       (verified = true <->
        hexdigest (hash_update (hashlib_new "md5") (data f))
        = PyStr.strip PyStr.dquote etag)).
Proof.
  intros file_path s3_key w f response etag s3_size Hf Hhead Hetag.
  unfold _verify_upload, try_except, bind at 1.
  rewrite (calculate_file_hash_digest _ _ _ _ Hf).
  unfold bind at 1, s3_head_object. rewrite Hhead.
  unfold bind at 1, getitem_ETag. rewrite Hetag. unfold ret at 1.
  rewrite contains_strip by discriminate.
  destruct (PyStr.contains PyStr.hyphen etag) eqn:Hhyphen.
  - unfold bind at 1, path_stat. simpl fs. rewrite Hf.
    unfold bind at 1, getitem_ContentLength.
    destruct (ContentLength response) as [n|] eqn:Hlen.
    + exists (st_size f =? n)%Z.
      split; [unfold ret, bind, when, logger;
              destruct (st_size f =? n)%Z; reflexivity|].
      split; [|discriminate].
      intros _ [= <-]. apply Z.eqb_eq.
    + exists false. split; [reflexivity|].
      split; [intros _ [=] | discriminate].
  - set (local_md5 := hexdigest _).
    exists (String.eqb local_md5 (PyStr.strip PyStr.dquote etag)).
    split; [unfold ret, bind, when, logger;
            destruct (String.eqb _ _); reflexivity|].
    split; [discriminate|].
    intros _. apply String.eqb_eq.
Qed.

End VerifierDecision.

(** ** The worker, path by path *)

Section Worker.
Context {Remote : Type} (s3_client : S3Client Remote) {hashlib : Hashlib}.
Context (config : BackupConfig).

Abbreviation bucket := (s3_bucket config).
Abbreviation preserves := (preserves (Remote:=Remote)).
Abbreviation maintains := (maintains (Remote:=Remote)).
Abbreviation checked := (checked config).
Abbreviation upload_start := (upload_start config).
Abbreviation transfer := (transfer s3_client config).
Abbreviation deletes_local := (deletes_local s3_client config).
Abbreviation counted_uploaded := (counted_uploaded s3_client config).

(** What the existence check answers, by the answer of the store. *)
Lemma file_exists_unfold (key : string) (w : World Remote) :
  _file_exists_in_s3 s3_client config key w =
  match head_object s3_client (remote w) bucket key with
  | Ok response =>
      (Ok (true, Some (PyStr.strip PyStr.dquote (default "" (ETag response)))),
       checked key w)
  | Raise (ClientError code) =>
      if String.eqb code "404" then (Ok (false, None), checked key w)
      else (Raise (ClientError code),
            add_log (ERROR, MsgCheckError key (ClientError code)) (checked key w))
  | Raise e => (Raise e, checked key w)
  end.
Proof.
  unfold _file_exists_in_s3, try_except, bind, s3_head_object, checked.
  destruct (head_object _ _ _ _) as [response|[code| | | | |]]; try reflexivity.
  destruct (String.eqb code "404"); reflexivity.
Qed.

Lemma upload_body_unfold file_path s3_key file_size dry_run (w : World Remote) :
  upload_body s3_client config file_path s3_key file_size dry_run w =
  match _file_exists_in_s3 s3_client config s3_key w with
  | (Ok (true, _), w1) =>
      (Ok false, snd (stats_skipped_add 1 (add_log (INFO, MsgSkipped s3_key) w1)))
  | (Ok (false, _), w1) =>
      if dry_run then (Ok false, add_log (INFO, MsgDryRun s3_key file_size) w1)
      else transfer file_path s3_key file_size w1
  | (Raise e, w1) => (Raise e, w1)
  end.
Proof.
  unfold upload_body, bind at 1.
  destruct (_file_exists_in_s3 _ _ _ _) as [[[[|] s3_etag]|e] w1];
    try reflexivity.
  destruct dry_run; reflexivity.
Qed.

Lemma upload_file_unfold file_path dry_run (w : World Remote) :
  _upload_file s3_client config file_path dry_run w =
  match lookup_file (fs w) file_path with
  | None => (Raise (FileNotFoundError file_path), w)
  | Some f =>
      try_except
        (upload_body s3_client config file_path file_path (st_size f) dry_run)
        (upload_except file_path) w
  end.
Proof.
  unfold _upload_file, bind, path_stat.
  destruct (lookup_file _ _); reflexivity.
Qed.

Lemma transfer_unfold file_path s3_key file_size (w : World Remote) :
  transfer file_path s3_key file_size w =
  match upload_call s3_client config file_path s3_key
          (add_log (INFO, MsgUploading s3_key file_size) w) with
  | (Raise e, w1) => (Raise e, w1)
  | (Ok _, w1) =>
      match _verify_upload s3_client config file_path s3_key w1 with
      | (Raise e, w2) => (Raise e, w2)
      | (Ok false, w2) =>
          match s3_delete_object s3_client bucket s3_key
                  (add_log (ERROR, MsgVerifyFailed s3_key) w2) with
          | (Ok _, w3) => (Ok false, w3)
          | (Raise e, w3) => (Raise e, w3)
          end
      | (Ok true, w2) =>
          let w3 :=
            snd (stats_total_bytes_add file_size
                   (snd (stats_uploaded_add 1
                           (add_log (INFO, MsgUploaded s3_key) w2)))) in
          if delete_after_upload config then
            match path_unlink file_path w3 with
            | (Ok _, w4) =>
                (Ok true,
                 add_log (INFO, MsgDeletedLocal (path_str config file_path))
                         (snd (stats_deleted_add 1 w4)))
            | (Raise e, w4) => (Raise e, w4)
            end
          else (Ok true, w3)
      end
  end.
Proof.
  unfold transfer. unfold bind at 1. unfold logger at 1. unfold bind at 1.
  destruct (upload_call _ _ _ _ _) as [[[]|e] w1]; [|reflexivity].
  unfold bind at 1.
  destruct (_verify_upload _ _ _ _ _) as [[[|]|e] w2]; [| |reflexivity].
  - cbn [negb]. cbv beta iota zeta delta [bind logger stats_uploaded_add
      stats_total_bytes_add stats_deleted_add when ret fst snd].
    destruct (delete_after_upload config); [|reflexivity].
    destruct (path_unlink _ _) as [[[]|e] w4]; reflexivity.
  - cbn [negb]. cbv beta iota zeta delta [bind logger ret].
    destruct (s3_delete_object _ _ _ _) as [[[]|e] w3]; reflexivity.
Qed.

Lemma upload_call_frame file_path s3_key :
  preserves fs (upload_call s3_client config file_path s3_key) /\
  preserves stats (upload_call s3_client config file_path s3_key) /\
  preserves log (upload_call s3_client config file_path s3_key).
Proof.
  unfold upload_call.
  repeat split; (apply preserves_bind; [eauto with frame|]); intros d;
    apply upload_file_frame.
Qed.

(** Every handler of the worker counts one failure and returns [False]. *)
Lemma upload_except_unfold s3_key e (w : World Remote) :
  exists msg,
    upload_except s3_key e w
    = (Ok false, snd (stats_failed_add 1 (add_log (ERROR, msg) w))).
Proof.
  unfold upload_except. destruct (is_ClientError e); eexists; reflexivity.
Qed.

Lemma upload_except_fs s3_key e (w : World Remote) :
  fs (snd (upload_except s3_key e w)) = fs w.
Proof.
  pose proof (stats_add_fs (Remote:=Remote) 1) as (_ & _ & ? & _).
  apply upload_except_preserves; eauto with frame.
Qed.

(** *** A key that is already in the bucket *)

(** C7.  When the store answers the metadata request for the key of a
    candidate, the worker returns [False] after that one request: the
    store and the directory are as before, [skipped] is one more, every
    other counter is as before. *)
Theorem existing_key_is_skipped :
  forall (file_path : string) (dry_run : bool) (w : World Remote)
         (f : File) (response : Response),
    lookup_file (fs w) file_path = Some f ->
    head_object s3_client (remote w) bucket file_path = Ok response ->
    let r := _upload_file s3_client config file_path dry_run w in
    fst r = Ok false /\
    remote (snd r) = remote w /\
    fs (snd r) = fs w /\
    calls (snd r) = calls w ++ [HeadObject bucket file_path] /\
    log (snd r) = log w ++ [(INFO, MsgSkipped file_path)] /\
    skipped (stats (snd r)) = skipped (stats w) + 1 /\
    uploaded (stats (snd r)) = uploaded (stats w) /\
    failed (stats (snd r)) = failed (stats w) /\
    deleted (stats (snd r)) = deleted (stats w) /\
    total_bytes (stats (snd r)) = total_bytes (stats w).
Proof.
  intros file_path dry_run w f response Hf Hhead r. subst r.
  rewrite upload_file_unfold, Hf. unfold try_except.
  rewrite upload_body_unfold, file_exists_unfold, Hhead.
  cbn. repeat split; reflexivity.
Qed.

(** *** Removal of the local file *)

Lemma upload_file_fs_cases file_path dry_run (w : World Remote) f :
  lookup_file (fs w) file_path = Some f ->
  let w' := snd (_upload_file s3_client config file_path dry_run w) in
  (fs w' = fs w /\ ~ deletes_local file_path f dry_run w) \/
  (deletes_local file_path f dry_run w /\
   exists dir, fs w = Some dir /\
               fs w' = Some {| entries := delete file_path (entries dir);
                               writable := writable dir |}).
Proof.
  intros Hf w'. subst w'.
  rewrite upload_file_unfold, Hf. unfold try_except.
  rewrite upload_body_unfold, file_exists_unfold.
  destruct (head_object s3_client (remote w) bucket file_path)
    as [response|e] eqn:Hhead.
  { left. split; [reflexivity|]. intros (_ & _ & Hh & _). congruence. }
  assert (Hother : forall w1 : World Remote,
             fs w1 = fs w -> e <> ClientError "404" ->
             fs (snd (upload_except file_path e w1)) = fs w /\
             ~ deletes_local file_path f dry_run w).
  { intros w1 Hw1 Hne. rewrite upload_except_fs. split; [done|].
    intros (_ & _ & Hh & _). congruence. }
  destruct e as [code| | | | |];
    try (left; apply Hother; [reflexivity | discriminate]).
  destruct (String.eqb code "404") eqn:Hcode.
  2: { left. apply Hother; [reflexivity|].
       intros [= ->]. discriminate Hcode. }
  apply String.eqb_eq in Hcode. subst code.
  destruct dry_run.
  { left. split; [reflexivity|]. intros ([=] & _). }
  rewrite transfer_unfold. fold (checked file_path w).
  fold (upload_start file_path (st_size f) w).
  pose proof (upload_call_frame file_path file_path) as (Hupfs & _).
  specialize (Hupfs (upload_start file_path (st_size f) w)).
  destruct (upload_call _ _ _ _ _) as [[[]|e] w1] eqn:Hup; simpl in Hupfs.
  2: { left. rewrite upload_except_fs. split; [done|].
       intros (_ & _ & _ & (w1' & w2' & Hup' & _) & _). congruence. }
  pose proof (head_object_frame s3_client bucket file_path) as (Hheadfs & _).
  pose proof (verify_upload_preserves s3_client config fs file_path file_path
                log_free_fs Hheadfs w1) as Hvfs.
  destruct (_verify_upload _ _ _ _ _) as [[[|]|e] w2] eqn:Hv; simpl in Hvfs.
  - (* verified *)
    cbv zeta.
    destruct (delete_after_upload config) eqn:Hflag.
    2: { left. split; [cbn; congruence|]. intros (_ & Hfl & _). congruence. }
    unfold path_unlink. cbn [fs stats_total_bytes_add stats_uploaded_add
                             set_stats add_log snd].
    rewrite Hvfs, Hupfs. cbn [fs upload_start checked add_log add_call].
    destruct (fs w) as [dir|] eqn:Hfs; [|discriminate Hf].
    cbn in Hf. rewrite Hf.
    destruct (writable dir) eqn:Hwr.
    + right. split.
      * repeat split; eauto.
      * exists dir. split; [reflexivity|]. rewrite Hwr. reflexivity.
    + left. rewrite upload_except_fs. split; [cbn; congruence|].
      intros (_ & _ & _ & _ & (dir' & Hd & Hwr')).
      assert (dir' = dir) by congruence. subst dir'. congruence.
  - (* not verified *)
    pose proof (delete_object_frame s3_client bucket file_path) as (Hdfs & _).
    specialize (Hdfs (add_log (ERROR, MsgVerifyFailed file_path) w2)).
    destruct (s3_delete_object _ _ _ _) as [[[]|e] w3]; simpl in Hdfs.
    + left. split; [cbn in *; congruence|].
      intros (_ & _ & _ & (w1' & w2' & Hup' & Hv') & _).
      assert (w1' = w1) by congruence. subst w1'. congruence.
    + left. rewrite upload_except_fs. split; [cbn in *; congruence|].
      intros (_ & _ & _ & (w1' & w2' & Hup' & Hv') & _).
      assert (w1' = w1) by congruence. subst w1'. congruence.
  - left. rewrite upload_except_fs. split; [cbn in *; congruence|].
    intros (_ & _ & _ & (w1' & w2' & Hup' & Hv') & _).
      assert (w1' = w1) by congruence. subst w1'. congruence.
Qed.

(** C6, as the code has it.  The worker removes the local file exactly
    in the circumstances of [deletes_local]: after a verification that
    answered [True], and only if [delete_after_upload] is set and the
    directory lets the entry go.  A verification that answered [False]
    leaves the file where it is, and no other entry is ever touched. *)
Theorem local_file_removed_iff :
  forall (file_path : string) (dry_run : bool) (w : World Remote) (f : File),
    lookup_file (fs w) file_path = Some f ->
    let w' := snd (_upload_file s3_client config file_path dry_run w) in
    (lookup_file (fs w') file_path = None <->
     deletes_local file_path f dry_run w) /\
    (forall w1 w2 : World Remote,
        upload_call s3_client config file_path file_path
          (upload_start file_path (st_size f) w) = (Ok tt, w1) ->
        _verify_upload s3_client config file_path file_path w1 = (Ok false, w2) ->
        lookup_file (fs w') file_path = Some f) /\
    (forall other : string,
        other <> file_path ->
        lookup_file (fs w') other = lookup_file (fs w) other).
Proof.
  intros file_path dry_run w f Hf w'.
  destruct (upload_file_fs_cases file_path dry_run w f Hf)
    as [[Hsame Hnot]|[Hdel (dir & Hdir & Hfs')]]; fold w' in Hsame || fold w' in Hfs'.
  - rewrite Hsame. split; [|split].
    + split; [congruence | contradiction].
    + intros. exact Hf.
    + reflexivity.
  - rewrite Hfs'. split; [|split].
    + split; [intros _; exact Hdel | intros _; cbn; apply lookup_delete_eq].
    + intros w1 w2 Hup Hv.
      destruct Hdel as (_ & _ & _ & (w1' & w2' & Hup' & Hv') & _).
      assert (w1' = w1) by congruence. subst w1'. congruence.
    + intros other Hne. rewrite Hdir. cbn. by apply lookup_delete_ne.
Qed.

(** *** The counters *)

Lemma bumped_eq (s0 s s' : Stats) du ds df dd tb :
  s = s0 -> bumped s s' du ds df dd tb -> bumped s0 s' du ds df dd tb.
Proof. by intros ->. Qed.

Lemma upload_except_stats s3_key e (w : World Remote) :
  bumped (stats w) (stats (snd (upload_except s3_key e w))) 0 0 1 0 0.
Proof.
  destruct (upload_except_unfold s3_key e w) as (msg & ->).
  cbn. unfold bumped. cbn. lia.
Qed.

(** What one execution of the worker adds to the counters. *)
Lemma upload_file_counts file_path dry_run (w : World Remote) :
  let w' := snd (_upload_file s3_client config file_path dry_run w) in
  exists du ds df dd : Z,
    bumped (stats w) (stats w') du ds df dd (du * size_of file_path w) /\
    0 <= du <= 1 /\ 0 <= ds <= 1 /\ 0 <= df <= 1 /\ 0 <= dd <= 1 /\
    du + ds <= 1 /\ ds + df <= 1 /\ dd <= du /\ dd + df <= 1 /\
    (du = 1 -> df = 1 ->
     dry_run = false /\ delete_after_upload config = true /\
     exists dir, fs w = Some dir /\ writable dir = false).
Proof.
  intros w'. subst w'. unfold size_of.
  rewrite upload_file_unfold.
  destruct (lookup_file (fs w) file_path) as [f|] eqn:Hf.
  2: { exists 0, 0, 0, 0. unfold bumped. cbn. repeat split; lia. }
  assert (Hfail : forall w1 : World Remote,
             stats w1 = stats w ->
             forall e, exists du ds df dd : Z,
               bumped (stats w) (stats (snd (upload_except file_path e w1)))
                      du ds df dd (du * st_size f) /\
               0 <= du <= 1 /\ 0 <= ds <= 1 /\ 0 <= df <= 1 /\ 0 <= dd <= 1 /\
               du + ds <= 1 /\ ds + df <= 1 /\ dd <= du /\ dd + df <= 1 /\
               (du = 1 -> df = 1 ->
                dry_run = false /\ delete_after_upload config = true /\
                exists dir, fs w = Some dir /\ writable dir = false)).
  { intros w1 Hw1 e. exists 0, 0, 1, 0.
    split; [eapply bumped_eq; [exact Hw1 | apply upload_except_stats]|].
    repeat split; lia. }
  assert (Hnone : forall w1 : World Remote,
             stats w1 = stats w ->
             exists du ds df dd : Z,
               bumped (stats w) (stats w1) du ds df dd (du * st_size f) /\
               0 <= du <= 1 /\ 0 <= ds <= 1 /\ 0 <= df <= 1 /\ 0 <= dd <= 1 /\
               du + ds <= 1 /\ ds + df <= 1 /\ dd <= du /\ dd + df <= 1 /\
               (du = 1 -> df = 1 ->
                dry_run = false /\ delete_after_upload config = true /\
                exists dir, fs w = Some dir /\ writable dir = false)).
  { intros w1 Hw1. exists 0, 0, 0, 0. rewrite Hw1. unfold bumped.
    repeat split; lia. }
  unfold try_except.
  rewrite upload_body_unfold, file_exists_unfold.
  destruct (head_object s3_client (remote w) bucket file_path)
    as [response|e] eqn:Hhead.
  { exists 0, 1, 0, 0. unfold bumped. cbn. repeat split; lia. }
  destruct e as [code| | | | |]; try (apply Hfail; reflexivity).
  destruct (String.eqb code "404"); [|apply Hfail; reflexivity].
  destruct dry_run; [apply Hnone; reflexivity|].
  rewrite transfer_unfold. fold (checked file_path w).
  fold (upload_start file_path (st_size f) w).
  pose proof (upload_call_frame file_path file_path) as (Hupfs & Hupst & _).
  specialize (Hupfs (upload_start file_path (st_size f) w)).
  specialize (Hupst (upload_start file_path (st_size f) w)).
  destruct (upload_call _ _ _ _ _) as [[[]|e] w1]; simpl in Hupfs, Hupst.
  2: { apply Hfail. exact Hupst. }
  pose proof (head_object_frame s3_client bucket file_path)
    as (Hheadfs & _ & Hheadst & _).
  pose proof (verify_upload_preserves s3_client config fs file_path file_path
                log_free_fs Hheadfs w1) as Hvfs.
  pose proof (verify_upload_preserves s3_client config stats file_path file_path
                log_free_stats Hheadst w1) as Hvst.
  destruct (_verify_upload _ _ _ _ _) as [[[|]|e] w2]; simpl in Hvfs, Hvst.
  - cbv zeta.
    destruct (delete_after_upload config) eqn:Hflag.
    2: { exists 1, 0, 0, 0. unfold bumped. cbn.
         rewrite Hvst, Hupst. cbn. repeat split; lia. }
    unfold path_unlink. cbn [fs stats_total_bytes_add stats_uploaded_add
                             set_stats add_log snd].
    rewrite Hvfs, Hupfs. cbn [fs upload_start checked add_log add_call].
    destruct (fs w) as [dir|] eqn:Hfs; [|discriminate Hf].
    cbn in Hf. rewrite Hf.
    destruct (writable dir) eqn:Hwr.
    + exists 1, 0, 0, 1. unfold bumped. cbn.
      rewrite Hvst, Hupst. cbn. repeat split; lia.
    + exists 1, 0, 1, 0.
      split.
      { unfold bumped. cbn. rewrite Hvst, Hupst. cbn. lia. }
      repeat split; try lia. exists dir. split; [reflexivity | exact Hwr].
  - pose proof (delete_object_frame s3_client bucket file_path) as (_ & Hdst & _).
    specialize (Hdst (add_log (ERROR, MsgVerifyFailed file_path) w2)).
    destruct (s3_delete_object _ _ _ _) as [[[]|e] w3]; simpl in Hdst.
    + apply Hnone. cbn in *. congruence.
    + apply Hfail. cbn in *. congruence.
  - apply Hfail. congruence.
Qed.

Lemma total_size_app l1 l2 :
  total_size (l1 ++ l2) = total_size l1 + total_size l2.
Proof.
  unfold total_size. induction l1 as [|e l1 IH]; [reflexivity|].
  cbn [app fold_right]. rewrite IH. lia.
Qed.

Lemma submit_all_cons file_path rest dry_run (w : World Remote) :
  snd (submit_all s3_client config (file_path :: rest) dry_run w)
  = snd (submit_all s3_client config rest dry_run
           (snd (_upload_file s3_client config file_path dry_run w))).
Proof.
  cbn [submit_all]. unfold bind at 1, executor_submit.
  destruct (_upload_file _ _ _ _ _) as [r w1]. cbn [snd].
  unfold bind, ret.
  destruct (submit_all _ _ _ _ _) as [[futures|e] w2]; reflexivity.
Qed.

Lemma submit_all_counts files dry_run :
  forall w : World Remote,
    let s' := stats (snd (submit_all s3_client config files dry_run w)) in
    let counted := counted_uploaded files dry_run w in
    uploaded s' = uploaded (stats w) + Z.of_nat (length counted) /\
    total_bytes s' = total_bytes (stats w) + total_size counted /\
    deleted s' - deleted (stats w) <= uploaded s' - uploaded (stats w).
Proof.
  induction files as [|file_path rest IH]; intros w.
  - cbn. lia.
  - cbv zeta. rewrite submit_all_cons. cbn [counted_uploaded].
    destruct (upload_file_counts file_path dry_run w)
      as (du & ds & df & dd & (Hu & _ & _ & Hd & Ht) & Hdu & _ & _ & _ & _ & _
          & Hdd & _).
    specialize (IH (snd (_upload_file s3_client config file_path dry_run w))).
    cbv zeta in IH. destruct IH as (IHu & IHt & IHd).
    rewrite length_app, total_size_app, IHu, IHt, Hu, Ht.
    destruct (Z.eqb_spec (uploaded (stats w) + du) (uploaded (stats w) + 1)).
    + assert (du = 1) by lia. subst du. cbn. lia.
    + assert (du = 0) by lia. subst du. cbn. lia.
Qed.

(** The collection loop leaves the statistics as the workers left them. *)
Lemma run_pool_stats files dry_run (w : World Remote) :
  stats (snd (run_pool s3_client config files dry_run w))
  = stats (snd (submit_all s3_client config files dry_run w)).
Proof.
  unfold run_pool, bind.
  destruct (submit_all s3_client config files dry_run w) as [[futs|e] w1];
    cbn [snd]; [|reflexivity].
  apply as_completed_loop_preserves. eauto with frame.
Qed.

(** The pool never raises: whatever a worker does, the loop goes on to the
    next future. *)
Lemma run_pool_never_raises files dry_run :
  total (Remote:=Remote) (run_pool s3_client config files dry_run).
Proof.
  unfold run_pool. apply total_bind; [apply submit_all_total|].
  intros futures. apply as_completed_loop_total.
Qed.

Lemma run_pool_maintains files dry_run :
  maintains (fun s => deleted s <= uploaded s)
            (run_pool s3_client config files dry_run).
Proof.
  intros w HI. rewrite run_pool_stats.
  pose proof (submit_all_counts files dry_run w) as H. cbv zeta in H. lia.
Qed.

Lemma run_backup_maintains dry_run :
  maintains (fun s => deleted s <= uploaded s)
            (run_backup s3_client config dry_run).
Proof.
  unfold run_backup.
  pose proof (get_files_for_backup_preserves (Remote:=Remote) config stats
                log_free_stats).
  pose proof (log_statistics_preserves (Remote:=Remote) stats log_free_stats).
  pose proof (get_stats_frame (Remote:=Remote) stats).
  pose proof (sum_sizes_preserves (Remote:=Remote) stats).
  repeat (apply maintains_bind;
          [solve [apply maintains_of_preserves; eauto with frame]|]; intros ?).
  match goal with
  | |- maintains _ (match ?files with _ => _ end) => destruct files
  end; [apply maintains_of_preserves; eauto with frame|].
  repeat (apply maintains_bind;
          [solve [apply maintains_of_preserves; eauto with frame]|]; intros ?).
  apply maintains_bind; [apply run_pool_maintains|]. intros _.
  apply maintains_of_preserves. eauto with frame.
Qed.

(** C10, as the code has it.  One execution of the worker adds 0 or 1 to
    each counter: never to [skipped] together with another, to [deleted]
    only together with [uploaded], to [failed] together with [uploaded]
    only when the removal of the local file is refused; [total_bytes]
    grows by the size of the file when [uploaded] grows.  Over a pool run,
    [uploaded] grows by the number of files counted as uploaded,
    [total_bytes] by the sum of their sizes, and [deleted] by no more
    than [uploaded]; a whole run keeps [deleted <= uploaded]. *)
Theorem counters_of_a_run :
  forall (files : list string) (dry_run : bool) (w : World Remote),
    (forall file_path : string,
        let w' := snd (_upload_file s3_client config file_path dry_run w) in
        exists du ds df dd : Z,
          bumped (stats w) (stats w') du ds df dd (du * size_of file_path w) /\
          0 <= du <= 1 /\ 0 <= ds <= 1 /\ 0 <= df <= 1 /\ 0 <= dd <= 1 /\
          du + ds <= 1 /\ ds + df <= 1 /\ dd <= du /\ dd + df <= 1 /\
          (du = 1 -> df = 1 ->
           dry_run = false /\ delete_after_upload config = true /\
           exists dir, fs w = Some dir /\ writable dir = false))
    /\
    (let s' := stats (snd (run_pool s3_client config files dry_run w)) in
     let counted := counted_uploaded files dry_run w in
     uploaded s' = uploaded (stats w) + Z.of_nat (length counted) /\
     total_bytes s' = total_bytes (stats w) + total_size counted /\
     deleted s' - deleted (stats w) <= uploaded s' - uploaded (stats w))
    /\
    (deleted (stats w) <= uploaded (stats w) ->
     let s' := stats (snd (run_backup s3_client config dry_run w)) in
     deleted s' <= uploaded s').
Proof.
  intros files dry_run w. split; [|split].
  - intros file_path. apply upload_file_counts.
  - cbv zeta. rewrite run_pool_stats. apply submit_all_counts.
  - intros HI. exact (run_backup_maintains dry_run w HI).
Qed.

End Worker.

(** C6, as the spec has it, fails: without [delete_after_upload] a verified
    upload leaves the local file in place. *)
Lemma verified_file_is_kept :
  ~ (forall (config : BackupConfig) (w w1 w2 : World Sim.Store)
            (file_path : string) (f : File),
        lookup_file (fs w) file_path = Some f ->
        upload_call Sim.client config file_path file_path
          (upload_start config file_path (st_size f) w) = (Ok tt, w1) ->
        _verify_upload Sim.client config file_path file_path w1 = (Ok true, w2) ->
        lookup_file (fs (snd (_upload_file Sim.client config file_path false w)))
                    file_path = None).
Proof.
  intros H.
  pose (w := Sim.fresh true Sim.Healthy).
  pose (f := Sim.archive).
  pose (w1 := snd (upload_call Sim.client (Sim.config false) "db.zip" "db.zip"
                     (upload_start (Sim.config false) "db.zip" (st_size f) w))).
  pose (w2 := snd (_verify_upload Sim.client (Sim.config false)
                     "db.zip" "db.zip" w1)).
  specialize (H (Sim.config false) w w1 w2 "db.zip" f).
  assert (H1 : lookup_file (fs w) "db.zip" = Some f) by (vm_compute; reflexivity).
  assert (H2 : upload_call Sim.client (Sim.config false) "db.zip" "db.zip"
                 (upload_start (Sim.config false) "db.zip" (st_size f) w)
               = (Ok tt, w1)) by (vm_compute; reflexivity).
  assert (H3 : _verify_upload Sim.client (Sim.config false) "db.zip" "db.zip" w1
               = (Ok true, w2)) by (vm_compute; reflexivity).
  specialize (H H1 H2 H3). vm_compute in H. discriminate H.
Qed.

(** C10, as the spec has it, fails: when the directory refuses the removal
    of a verified file, the same execution has counted [uploaded] and
    counts [failed]. *)
Lemma uploaded_and_failed_together :
  ~ (forall (w : World Sim.Store) (file_path : string) (dry_run : bool),
        let w' := snd (_upload_file Sim.client (Sim.config true)
                         file_path dry_run w) in
        (uploaded (stats w') - uploaded (stats w))
        + (skipped (stats w') - skipped (stats w))
        + (failed (stats w') - failed (stats w)) <= 1).
Proof.
  intros H.
  specialize (H (Sim.fresh false Sim.Healthy) "db.zip" false).
  vm_compute in H. apply H. reflexivity.
Qed.

(** ** The selection of candidates *)

Section Selection.
Context {Remote : Type} (config : BackupConfig).






End Selection.


(** ** Failures that the run does not count *)

(** C1 on the code.  The store keeps a damaged copy of [db.zip]: the upload
    returns, the verification answers [False], the copy is deleted, and
    [failed] stays 0, so that the run reports success. *)
Lemma verification_failure_is_not_counted :
  let config := Sim.config true in
  let w := Sim.fresh true Sim.Corrupts in
  let uploaded_to :=
    upload_call Sim.client config "db.zip" "db.zip"
      (upload_start config "db.zip" 3 w) in
  fst uploaded_to = Ok tt /\
  fst (_verify_upload Sim.client config "db.zip" "db.zip" (snd uploaded_to))
  = Ok false /\
  fst (_upload_file Sim.client config "db.zip" false w) = Ok false /\
  failed (stats (snd (_upload_file Sim.client config "db.zip" false w))) = 0 /\
  fst (run_backup Sim.client config false w) = Ok true /\
  failed (stats (snd (run_backup Sim.client config false w))) = 0.
Proof. vm_compute. repeat split; reflexivity. Qed.

(** C3 on the code.  [gone.zip] has left the directory before its worker
    starts: [stat] raises outside the [try] block of the worker, the
    collection loop logs the exception and goes on to [db.zip], and
    [failed] stays 0. *)
Lemma worker_fault_is_not_counted :
  let config := Sim.config true in
  let w := Sim.fresh true Sim.Healthy in
  let run := run_pool Sim.client config ["gone.zip"; "db.zip"] false w in
  fst (_upload_file Sim.client config "gone.zip" false w)
  = Raise (FileNotFoundError "gone.zip") /\
  fst run = Ok tt /\
  In (ERROR, MsgCritical "/var/db_backup/gone.zip" (FileNotFoundError "gone.zip"))
     (log (snd run)) /\
  uploaded (stats (snd run)) = 1 /\
  failed (stats (snd run)) = 0.
Proof. vm_compute. repeat split; try reflexivity. tauto. Qed.

(** ** The theorems at work on the store in memory *)

#[global] Instance checksum_streaming : HashlibStreaming Sim.checksum.
Proof.
  split.
  - intros h a b. cbn. symmetry. apply fold_left_app.
  - reflexivity.
Qed.

Lemma verify_upload_never_raises_witness :
  _verify_upload Sim.client (Sim.config true) "db.zip" "db.zip"
    (Sim.fresh true Sim.HeadFails)
  = (Ok false,
     add_log (ERROR, MsgVerifyError "db.zip" (ClientError "500"))
       (add_call (HeadObject "backup" "db.zip") (Sim.fresh true Sim.HeadFails))).
Proof.
  exact (proj1 (proj2 (proj2 (proj2
           (verify_upload_never_raises Sim.client (Sim.config true)
              "db.zip" "db.zip" (Sim.fresh true Sim.HeadFails)))))
           Sim.archive (ClientError "500") eq_refl eq_refl eq_refl).
Defined.

Lemma verify_upload_decision_witness :
  exists verified : bool,
    fst (_verify_upload Sim.client (Sim.config true) "db.zip" "db.zip"
           Sim.backed_up) = Ok verified /\
    (PyStr.contains PyStr.hyphen (Sim.quoted "0003329b") = true ->
     Some 3 = Some 3 ->
     (verified = true <-> st_size Sim.archive = 3)) /\
    (PyStr.contains PyStr.hyphen (Sim.quoted "0003329b") = false ->
     (verified = true <->
      hexdigest (hash_update (hashlib_new "md5") (data Sim.archive))
      = PyStr.strip PyStr.dquote (Sim.quoted "0003329b"))).
Proof.
  apply (verify_upload_decision Sim.client (Sim.config true) "db.zip" "db.zip"
           Sim.backed_up Sim.archive
           {| ETag := Some (Sim.quoted "0003329b"); ContentLength := Some 3 |}
           (Sim.quoted "0003329b") 3).
  - reflexivity.
  - vm_compute. reflexivity.
  - reflexivity.
Defined.

Lemma existing_key_is_skipped_witness :
  let w := Sim.after_first_run in
  let r := _upload_file Sim.client (Sim.config false) "db.zip" false w in
  fst r = Ok false /\
  remote (snd r) = remote w /\
  fs (snd r) = fs w /\
  calls (snd r) = calls w ++ [HeadObject "backup" "db.zip"] /\
  log (snd r) = log w ++ [(INFO, MsgSkipped "db.zip")] /\
  skipped (stats (snd r)) = skipped (stats w) + 1 /\
  uploaded (stats (snd r)) = uploaded (stats w) /\
  failed (stats (snd r)) = failed (stats w) /\
  deleted (stats (snd r)) = deleted (stats w) /\
  total_bytes (stats (snd r)) = total_bytes (stats w).
Proof.
  apply (existing_key_is_skipped Sim.client (Sim.config false) "db.zip" false
           Sim.after_first_run Sim.archive
           {| ETag := Some (Sim.quoted "0003329b"); ContentLength := Some 3 |}).
  - vm_compute. reflexivity.
  - vm_compute. reflexivity.
Defined.

Lemma local_file_removed_iff_witness :
  let w := Sim.fresh true Sim.Healthy in
  let w' := snd (_upload_file Sim.client (Sim.config true) "db.zip" false w) in
  (lookup_file (fs w') "db.zip" = None <->
   deletes_local Sim.client (Sim.config true) "db.zip" Sim.archive false w) /\
  (forall w1 w2 : World Sim.Store,
      upload_call Sim.client (Sim.config true) "db.zip" "db.zip"
        (upload_start (Sim.config true) "db.zip" (st_size Sim.archive) w)
      = (Ok tt, w1) ->
      _verify_upload Sim.client (Sim.config true) "db.zip" "db.zip" w1
      = (Ok false, w2) ->
      lookup_file (fs w') "db.zip" = Some Sim.archive) /\
  (forall other : string,
      other <> "db.zip" -> lookup_file (fs w') other = lookup_file (fs w) other).
Proof.
  apply (local_file_removed_iff Sim.client (Sim.config true) "db.zip" false
           (Sim.fresh true Sim.Healthy) Sim.archive).
  reflexivity.
Defined.

Lemma counters_of_a_run_witness :
  let w := Sim.fresh false Sim.Healthy in
  let s' := stats (snd (run_pool Sim.client (Sim.config true) ["db.zip"] false w)) in
  let counted :=
    counted_uploaded Sim.client (Sim.config true) ["db.zip"] false w in
  uploaded s' = uploaded (stats w) + Z.of_nat (length counted) /\
  total_bytes s' = total_bytes (stats w) + total_size counted /\
  deleted s' - deleted (stats w) <= uploaded s' - uploaded (stats w).
Proof.
  exact (proj1 (proj2 (counters_of_a_run Sim.client (Sim.config true)
                         ["db.zip"] false (Sim.fresh false Sim.Healthy)))).
Defined.


(** ** The model at work *)

Example suffix_examples :
  PyStr.suffix "archive.tar.gz" = ".gz" /\
  PyStr.suffix "archive.ZIP" = ".ZIP" /\
  PyStr.suffix ".gz" = "" /\
  PyStr.suffix "archive." = "" /\
  PyStr.suffix "archive" = "".
Proof. repeat split; reflexivity. Qed.

Example extension_filter :
  PyStr.mem (PyStr.suffix "archive.tar") [".7z"; ".gz"; ".zip"] = false /\
  PyStr.mem (PyStr.suffix "archive.zip") [".7z"; ".gz"; ".zip"] = true /\
  PyStr.mem (PyStr.suffix "archive.ZIP") [".7z"; ".gz"; ".zip"] = false.
Proof. repeat split; reflexivity. Qed.

Example strip_examples :
  PyStr.strip PyStr.dquote (Sim.quoted "0003329b") = "0003329b" /\
  PyStr.strip PyStr.dquote (Sim.quoted "0003329b-2") = "0003329b-2" /\
  PyStr.strip PyStr.dquote "0003329b" = "0003329b".
Proof. repeat split; reflexivity. Qed.

Example healthy_run :
  let r := run_backup Sim.client (Sim.config true) false
             (Sim.fresh true Sim.Healthy) in
  fst r = Ok true /\
  stats (snd r) = {| uploaded := 1; skipped := 0; failed := 0; deleted := 1;
                     total_bytes := 3 |} /\
  lookup_file (fs (snd r)) "db.zip" = None /\
  Sim.body <$> Sim.objects (remote (snd r)) !! "db.zip" = Some [x01; x02; x03].
Proof. vm_compute. repeat split; reflexivity. Qed.

Example refused_upload_is_counted :
  let r := run_backup Sim.client (Sim.config true) false
             (Sim.fresh true Sim.UploadFails) in
  fst r = Ok false /\
  stats (snd r) = {| uploaded := 0; skipped := 0; failed := 1; deleted := 0;
                     total_bytes := 0 |} /\
  lookup_file (fs (snd r)) "db.zip" = Some Sim.archive.
Proof. vm_compute. repeat split; reflexivity. Qed.

Example second_run_skips :
  let r := run_backup Sim.client (Sim.config false) false Sim.after_first_run in
  fst r = Ok true /\
  remote (snd r) = remote Sim.after_first_run /\
  skipped (stats (snd r)) = skipped (stats Sim.after_first_run) + 1 /\
  failed (stats (snd r)) = failed (stats Sim.after_first_run).
Proof. vm_compute. repeat split; reflexivity. Qed.

(** * Further properties of the code *)

(** ** Hashing and the existence check *)

Section HashAndCheck.
Context {Remote : Type} (s3_client : S3Client Remote).
Context {hashlib : Hashlib} {streaming : HashlibStreaming hashlib}.
Context (config : BackupConfig).

(** X1.  For MD5, the algorithm that the script asks for,
    [_calculate_file_hash] returns the digest of the whole content of a
    regular file, whatever its length is against the chunk of 8192 bytes;
    on a missing file it raises [FileNotFoundError].  It changes nothing. *)
Theorem file_hash_covers_whole_file :
  forall (file_path : string) (w : World Remote),
    (forall f : File,
        lookup_file (fs w) file_path = Some f ->
        is_file f = true ->
        _calculate_file_hash file_path "md5" w
        = (Ok (hexdigest (hash_update (hashlib_new "md5") (data f))), w)) /\
    (lookup_file (fs w) file_path = None ->
     _calculate_file_hash file_path "md5" w
     = (Raise (FileNotFoundError file_path), w)).
Proof.
  intros file_path w.
  unfold _calculate_file_hash, bind, open_rb, ret.
  split.
  - intros f -> _. rewrite read_chunks_whole by lia. reflexivity.
  - intros ->. reflexivity.
Qed.

(** X2.  [_file_exists_in_s3] answers "present" exactly when the store
    answers the metadata request, "absent" exactly when the store raises
    [ClientError] with code 404, and raises again every other exception of
    the store; it sends that one request and changes neither the directory,
    nor the store, nor a counter. *)
Theorem existence_check_outcomes :
  forall (key : string) (w : World Remote),
    let r := _file_exists_in_s3 s3_client config key w in
    let answer := head_object s3_client (remote w) (s3_bucket config) key in
    (forall etag, fst r = Ok (true, etag) <->
                  exists response,
                    answer = Ok response /\
                    etag = Some (PyStr.strip PyStr.dquote
                                   (default "" (ETag response)))) /\
    (forall etag, fst r = Ok (false, etag) <->
                  answer = Raise (ClientError "404") /\ etag = None) /\
    (forall e, fst r = Raise e <->
               answer = Raise e /\ e <> ClientError "404") /\
    calls (snd r) = calls w ++ [HeadObject (s3_bucket config) key] /\
    fs (snd r) = fs w /\ remote (snd r) = remote w /\ stats (snd r) = stats w.
Proof.
  intros key w r answer. subst r answer.
  rewrite file_exists_unfold.
  destruct (head_object s3_client (remote w) (s3_bucket config) key)
    as [response|e] eqn:Hhead.
  { cbn. split; [|split; [|split]].
    - intros etag. split.
      + intros [= <-]. eauto.
      + intros (response' & [= <-] & ->). reflexivity.
    - intros etag. split; [intros [=] | intros ([=] & _)].
    - intros e. split; [intros [=] | intros ([=] & _)].
    - repeat split; reflexivity. }
  assert (Hraise : forall w1 : World Remote,
             calls w1 = calls w ++ [HeadObject (s3_bucket config) key] ->
             fs w1 = fs w -> remote w1 = remote w -> stats w1 = stats w ->
             e <> ClientError "404" ->
             let r := (Raise e, w1) : Result (bool * option string) * World Remote in
             (forall etag, fst r = Ok (true, etag) <->
                           exists response,
                             @Raise Response e = Ok response /\
                             etag = Some (PyStr.strip PyStr.dquote
                                            (default "" (ETag response)))) /\
             (forall etag, fst r = Ok (false, etag) <->
                           @Raise Response e = Raise (ClientError "404") /\ etag = None) /\
             (forall e', fst r = Raise e' <->
                         @Raise Response e = Raise e' /\ e' <> ClientError "404") /\
             calls (snd r) = calls w ++ [HeadObject (s3_bucket config) key] /\
             fs (snd r) = fs w /\ remote (snd r) = remote w /\
             stats (snd r) = stats w).
  { intros w1 Hc Hf Hr Hs Hne. cbn. split; [|split; [|split]].
    - intros etag. split; [intros [=] | intros (response' & [=] & _)].
    - intros etag. split; [intros [=] | intros ([= ->] & _); congruence].
    - intros e'. split.
      + intros [= <-]. split; [reflexivity | exact Hne].
      + intros ([= <-] & _). reflexivity.
    - auto. }
  destruct e as [code| | | | |];
    try (apply Hraise; [reflexivity .. | discriminate]).
  destruct (String.eqb code "404") eqn:Hcode.
  - apply String.eqb_eq in Hcode. subst code.
    cbn. split; [|split; [|split]].
    + intros etag. split; [intros [=] | intros (response' & [=] & _)].
    + intros etag. split; [intros [= <-]; auto | intros (_ & ->); reflexivity].
    + intros e. split; [intros [=] | intros ([= <-] & Hne); congruence].
    + repeat split; reflexivity.
  - apply String.eqb_neq in Hcode.
    apply Hraise; [reflexivity .. | congruence].
Qed.

End HashAndCheck.

(** ** More on the worker *)

Section WorkerOutcomes.
Context {Remote : Type} (s3_client : S3Client Remote) {hashlib : Hashlib}.
Context (config : BackupConfig).

Abbreviation bucket := (s3_bucket config).
Abbreviation upload_start := (upload_start config).

Lemma upload_except_total s3_key e :
  total (Remote:=Remote) (upload_except s3_key e).
Proof.
  intros w. destruct (upload_except_unfold s3_key e w) as (msg & ->).
  exists false. reflexivity.
Qed.

(** X3.  The worker raises only when the file is not in the directory as it
    starts: then [stat] raises [FileNotFoundError] before anything is done.
    For a file that is there, every path ends in a returned boolean. *)
Theorem worker_raises_only_without_file :
  forall (file_path : string) (dry_run : bool) (w : World Remote),
    let r := _upload_file s3_client config file_path dry_run w in
    (lookup_file (fs w) file_path = None ->
     r = (Raise (FileNotFoundError file_path), w)) /\
    (forall f : File,
        lookup_file (fs w) file_path = Some f -> exists b : bool, fst r = Ok b).
Proof.
  intros file_path dry_run w r. subst r. rewrite upload_file_unfold. split.
  - intros ->. reflexivity.
  - intros f ->. apply total_try_except. apply upload_except_total.
Qed.

(** X4.  When the existence check fails with anything but a 404 (access
    denied, no connection), the worker uploads nothing: the metadata
    request is the only request it sends, the store and the directory are
    as before, the failure is counted and [False] is returned. *)
Theorem failed_check_uploads_nothing :
  forall (file_path : string) (dry_run : bool) (w : World Remote)
         (f : File) (e : Exception),
    lookup_file (fs w) file_path = Some f ->
    head_object s3_client (remote w) bucket file_path = Raise e ->
    e <> ClientError "404" ->
    let r := _upload_file s3_client config file_path dry_run w in
    fst r = Ok false /\
    calls (snd r) = calls w ++ [HeadObject bucket file_path] /\
    remote (snd r) = remote w /\
    fs (snd r) = fs w /\
    bumped (stats w) (stats (snd r)) 0 0 1 0 0.
Proof.
  intros file_path dry_run w f e Hf Hhead Hne r. subst r.
  rewrite upload_file_unfold, Hf. unfold try_except.
  rewrite upload_body_unfold, file_exists_unfold, Hhead.
  unfold bumped.
  destruct e as [code| | | | |]; try (cbn; repeat split; lia).
  destruct (String.eqb code "404") eqn:Hcode.
  - apply String.eqb_eq in Hcode. congruence.
  - cbn. repeat split; lia.
Qed.

Lemma upload_call_calls file_path s3_key (w : World Remote) :
  calls (snd (upload_call s3_client config file_path s3_key w))
  = calls w ++ [upload_request config file_path s3_key (clock w)].
Proof.
  unfold upload_call, bind, datetime_now, s3_upload_file, upload_request.
  cbv zeta. destruct (upload_file _ _ _ _ _ _ _ _) as [r res].
  destruct res; reflexivity.
Qed.

Lemma upload_call_remote_clock file_path s3_key (w : World Remote) :
  clock (snd (upload_call s3_client config file_path s3_key w)) = clock w.
Proof.
  unfold upload_call, bind, datetime_now, s3_upload_file.
  cbv zeta. destruct (upload_file _ _ _ _ _ _ _ _) as [r res].
  destruct res; reflexivity.
Qed.

(** X5.  When the key is absent and [upload_file] raises, the worker
    returns [False] and counts one failure; it has sent the existence check
    and the upload, and nothing after them (no verification, no removal),
    and the local file is where it was. *)
Theorem refused_upload_is_a_failure :
  forall (file_path : string) (w w1 : World Remote) (f : File) (e : Exception),
    lookup_file (fs w) file_path = Some f ->
    head_object s3_client (remote w) bucket file_path
    = Raise (ClientError "404") ->
    upload_call s3_client config file_path file_path
      (upload_start file_path (st_size f) w) = (Raise e, w1) ->
    let r := _upload_file s3_client config file_path false w in
    fst r = Ok false /\
    bumped (stats w) (stats (snd r)) 0 0 1 0 0 /\
    fs (snd r) = fs w /\
    remote (snd r) = remote w1 /\
    calls (snd r)
    = calls w ++ [HeadObject bucket file_path;
                  upload_request config file_path file_path (clock w)].
Proof.
  intros file_path w w1 f e Hf Hhead Hup r. subst r.
  pose proof (upload_call_calls file_path file_path
                (upload_start file_path (st_size f) w)) as Hcalls.
  pose proof (upload_call_frame s3_client config file_path file_path)
    as (Hfs & Hst & _).
  specialize (Hfs (upload_start file_path (st_size f) w)).
  specialize (Hst (upload_start file_path (st_size f) w)).
  rewrite Hup in Hcalls, Hfs, Hst. cbn in Hcalls, Hfs, Hst.
  rewrite upload_file_unfold, Hf. unfold try_except.
  rewrite upload_body_unfold, file_exists_unfold, Hhead.
  change (String.eqb "404" "404") with true. cbv beta iota.
  rewrite transfer_unfold.
  fold (checked config file_path w).
  fold (upload_start file_path (st_size f) w). rewrite Hup.
  destruct (upload_except_unfold file_path e w1) as (msg & ->).
  unfold bumped. cbn. rewrite Hst, Hfs, Hcalls, <- app_assoc.
  repeat split; lia.
Qed.

(** X6.  When the upload returned and the verification answers [False],
    the worker asks the store to delete the object it has just written,
    returns [False] and leaves the local file in place; no upload is
    counted, and a failure is counted only if the deletion itself raises. *)
Theorem failed_verification_deletes_remote_copy :
  forall (file_path : string) (w w1 w2 : World Remote) (f : File),
    lookup_file (fs w) file_path = Some f ->
    head_object s3_client (remote w) bucket file_path
    = Raise (ClientError "404") ->
    upload_call s3_client config file_path file_path
      (upload_start file_path (st_size f) w) = (Ok tt, w1) ->
    _verify_upload s3_client config file_path file_path w1 = (Ok false, w2) ->
    let r := _upload_file s3_client config file_path false w in
    let deletion := delete_object s3_client (remote w2) bucket file_path in
    fst r = Ok false /\
    calls (snd r) = calls w2 ++ [DeleteObject bucket file_path] /\
    remote (snd r) = fst deletion /\
    fs (snd r) = fs w /\
    bumped (stats w) (stats (snd r)) 0 0
           (match snd deletion with Ok _ => 0 | Raise _ => 1 end) 0 0.
Proof.
  intros file_path w w1 w2 f Hf Hhead Hup Hv r deletion. subst r deletion.
  pose proof (upload_call_frame s3_client config file_path file_path)
    as (Hfs & Hst & _).
  specialize (Hfs (upload_start file_path (st_size f) w)).
  specialize (Hst (upload_start file_path (st_size f) w)).
  rewrite Hup in Hfs, Hst. cbn in Hfs, Hst.
  pose proof (head_object_frame s3_client bucket file_path)
    as (Hheadfs & _ & Hheadst & _).
  pose proof (verify_upload_preserves s3_client config fs file_path file_path
                log_free_fs Hheadfs w1) as Hvfs.
  pose proof (verify_upload_preserves s3_client config stats file_path file_path
                log_free_stats Hheadst w1) as Hvst.
  rewrite Hv in Hvfs, Hvst. cbn in Hvfs, Hvst.
  rewrite upload_file_unfold, Hf. unfold try_except.
  rewrite upload_body_unfold, file_exists_unfold, Hhead.
  change (String.eqb "404" "404") with true. cbv beta iota.
  rewrite transfer_unfold.
  fold (checked config file_path w).
  fold (upload_start file_path (st_size f) w). rewrite Hup, Hv.
  unfold s3_delete_object. cbn [remote add_log].
  destruct (delete_object s3_client (remote w2) bucket file_path)
    as [r [[]|e]]; unfold bumped.
  - cbn. rewrite Hvst, Hst, Hvfs, Hfs. repeat split; lia.
  - destruct (upload_except_unfold file_path e
                (set_remote r
                   (add_call (DeleteObject bucket file_path)
                      (add_log (ERROR, MsgVerifyFailed file_path) w2))))
      as (msg & ->).
    cbn. rewrite Hvst, Hst, Hvfs, Hfs. repeat split; lia.
Qed.

Lemma verify_upload_calls file_path s3_key (w : World Remote) f :
  lookup_file (fs w) file_path = Some f ->
  calls (snd (_verify_upload s3_client config file_path s3_key w))
  = calls w ++ [HeadObject bucket s3_key].
Proof.
  intros Hf.
  cbv beta iota zeta delta [_verify_upload try_except bind _calculate_file_hash
    open_rb s3_head_object ret raise logger when getitem_ETag
    getitem_ContentLength path_stat].
  rewrite Hf. cbv beta iota.
  destruct (head_object s3_client (remote w) bucket s3_key) as [response|e];
    [|reflexivity].
  destruct (ETag response) as [etag|]; [|reflexivity].
  cbv beta iota.
  destruct (PyStr.contains PyStr.hyphen (PyStr.strip PyStr.dquote etag)).
  - cbn [fs add_call]. rewrite Hf. cbv beta iota.
    destruct (ContentLength response) as [n|]; [|reflexivity].
    cbv beta iota. destruct (st_size f =? n)%Z; reflexivity.
  - destruct (String.eqb _ _); reflexivity.
Qed.

Lemma upload_except_calls s3_key e (w : World Remote) :
  calls (snd (upload_except s3_key e w)) = calls w.
Proof.
  destruct (upload_except_unfold s3_key e w) as (msg & ->). reflexivity.
Qed.

(** The requests of one worker, path by path. *)
Lemma upload_file_calls :
  forall (file_path : string) (dry_run : bool) (w : World Remote),
    exists cs : list Call,
      calls (snd (_upload_file s3_client config file_path dry_run w))
      = calls w ++ cs /\
      cs `prefix_of` worker_requests config file_path (clock w) /\
      (lookup_file (fs w) file_path = None -> cs = []) /\
      (is_Some (lookup_file (fs w) file_path) ->
       exists cs', cs = HeadObject bucket file_path :: cs').
Proof.
  intros file_path dry_run w. rewrite upload_file_unfold.
  destruct (lookup_file (fs w) file_path) as [f|] eqn:Hf.
  2: { exists []. rewrite app_nil_r. repeat split; [by eexists|].
       intros [? [=]]. }
  assert (Hone : forall w1 : World Remote,
             calls w1 = calls w ++ [HeadObject bucket file_path] ->
             exists cs : list Call,
               calls w1 = calls w ++ cs /\
               cs `prefix_of` worker_requests config file_path (clock w) /\
               (Some f = None -> cs = []) /\
               (is_Some (Some f) ->
                exists cs', cs = HeadObject bucket file_path :: cs')).
  { intros w1 H1. exists [HeadObject bucket file_path].
    repeat split; [exact H1 | by eexists | discriminate | by eexists]. }
  unfold try_except. rewrite upload_body_unfold, file_exists_unfold.
  destruct (head_object s3_client (remote w) bucket file_path)
    as [response|e] eqn:Hhead.
  { cbv beta iota. apply Hone. reflexivity. }
  destruct e as [code| | | | |];
    try (cbv beta iota; rewrite upload_except_calls; apply Hone; reflexivity).
  destruct (String.eqb code "404").
  2: { cbv beta iota. rewrite upload_except_calls. apply Hone. reflexivity. }
  cbv beta iota. destruct dry_run; [apply Hone; reflexivity|].
  rewrite transfer_unfold. fold (checked config file_path w).
  fold (upload_start file_path (st_size f) w).
  pose proof (upload_call_calls file_path file_path
                (upload_start file_path (st_size f) w)) as Hup.
  pose proof (upload_call_frame s3_client config file_path file_path)
    as (Hupfs & _).
  specialize (Hupfs (upload_start file_path (st_size f) w)).
  destruct (upload_call _ _ _ _ _) as [[[]|e] w1]; cbn in Hup, Hupfs.
  2: { rewrite upload_except_calls, Hup, <- app_assoc. eexists.
       repeat split; [by eexists | discriminate | by eexists]. }
  assert (Hf1 : lookup_file (fs w1) file_path = Some f) by (by rewrite Hupfs).
  pose proof (verify_upload_calls file_path file_path w1 f Hf1) as Hv.
  pose proof (head_object_frame s3_client bucket file_path) as (Hheadfs & _).
  pose proof (verify_upload_preserves s3_client config fs file_path file_path
                log_free_fs Hheadfs w1) as Hvfs.
  destruct (_verify_upload _ _ _ _ _) as [[[|]|e] w2]; cbn in Hv, Hvfs.
  - cbv zeta.
    assert (Hthree : forall w3 : World Remote,
               calls w3 = calls w2 ->
               exists cs : list Call,
                 calls w3 = calls w ++ cs /\
                 cs `prefix_of` worker_requests config file_path (clock w) /\
                 (Some f = None -> cs = []) /\
               (is_Some (Some f) ->
                exists cs', cs = HeadObject bucket file_path :: cs')).
    { intros w3 H3. rewrite H3, Hv, Hup, <- !app_assoc. eexists.
      repeat split; [by eexists | discriminate | by eexists]. }
    destruct (delete_after_upload config); [|apply Hthree; reflexivity].
    pose proof (path_unlink_frame (Remote:=Remote) file_path)
      as (_ & _ & Hunl & _).
    match goal with
    | |- context [path_unlink file_path ?w3] =>
        specialize (Hunl w3); destruct (path_unlink file_path w3)
          as [[[]|e] w4]
    end; cbn in Hunl.
    + apply Hthree. cbn. exact Hunl.
    + rewrite upload_except_calls. apply Hthree. exact Hunl.
  - unfold s3_delete_object. cbn [remote add_log].
    destruct (delete_object s3_client (remote w2) bucket file_path)
      as [r [[]|e]].
    + cbn. rewrite Hv, Hup, <- !app_assoc. eexists.
      repeat split; [by eexists | discriminate | by eexists].
    + rewrite upload_except_calls. cbn. rewrite Hv, Hup, <- !app_assoc.
      eexists. repeat split; [by eexists | discriminate | by eexists].
  - rewrite upload_except_calls, Hv, Hup, <- !app_assoc. eexists.
    repeat split; [by eexists | discriminate | by eexists].
Qed.

(** X7.  The requests of one worker are an initial part of the sequence
    "existence check, upload, verification, removal of the copy", all for
    its own key in the configured bucket: nothing is sent twice (no second
    upload after a failure), nothing for another key, and nothing at all
    when the file is missing. *)
Theorem worker_requests_in_order :
  forall (file_path : string) (dry_run : bool) (w : World Remote),
    exists cs : list Call,
      calls (snd (_upload_file s3_client config file_path dry_run w))
      = calls w ++ cs /\
      cs `prefix_of` worker_requests config file_path (clock w) /\
      (lookup_file (fs w) file_path = None -> cs = []).
Proof.
  intros file_path dry_run w.
  destruct (upload_file_calls file_path dry_run w) as (cs & H1 & H2 & H3 & _).
  exists cs. auto.
Qed.

(** X8.  The worker returns [True] exactly when it has counted the file
    as uploaded and has counted no failure: [False] stands for a skip, a
    simulation, a failure, and also for a verified upload whose local file
    could not be removed. *)
Theorem true_means_counted_upload :
  forall (file_path : string) (dry_run : bool) (w : World Remote),
    let r := _upload_file s3_client config file_path dry_run w in
    fst r = Ok true <->
    uploaded (stats (snd r)) = uploaded (stats w) + 1 /\
    failed (stats (snd r)) = failed (stats w).
Proof.
  intros file_path dry_run w r. subst r. rewrite upload_file_unfold.
  destruct (lookup_file (fs w) file_path) as [f|] eqn:Hf.
  2: { cbn. split; [discriminate | lia]. }
  assert (Hexc : forall (w1 : World Remote) e,
             failed (stats w1) = failed (stats w) ->
             fst (upload_except file_path e w1) = Ok true <->
             uploaded (stats (snd (upload_except file_path e w1)))
             = uploaded (stats w) + 1 /\
             failed (stats (snd (upload_except file_path e w1)))
             = failed (stats w)).
  { intros w1 e H1. destruct (upload_except_unfold file_path e w1) as (msg & ->).
    cbn. split; [discriminate | lia]. }
  assert (Hno : forall w1 : World Remote,
             uploaded (stats w1) = uploaded (stats w) ->
             @Ok bool false = Ok true <->
             uploaded (stats w1) = uploaded (stats w) + 1 /\
             failed (stats w1) = failed (stats w)).
  { intros w1 H1. split; [discriminate | lia]. }
  unfold try_except. rewrite upload_body_unfold, file_exists_unfold.
  destruct (head_object s3_client (remote w) bucket file_path)
    as [response|e] eqn:Hhead.
  { cbv beta iota. apply Hno. reflexivity. }
  destruct e as [code| | | | |];
    try (cbv beta iota; apply Hexc; reflexivity).
  destruct (String.eqb code "404").
  2: { cbv beta iota. apply Hexc. reflexivity. }
  cbv beta iota. destruct dry_run; [apply Hno; reflexivity|].
  rewrite transfer_unfold. fold (checked config file_path w).
  fold (upload_start file_path (st_size f) w).
  pose proof (upload_call_frame s3_client config file_path file_path)
    as (Hupfs & Hupst & _).
  specialize (Hupfs (upload_start file_path (st_size f) w)).
  specialize (Hupst (upload_start file_path (st_size f) w)).
  destruct (upload_call _ _ _ _ _) as [[[]|e] w1]; cbn in Hupfs, Hupst.
  2: { apply Hexc. by rewrite Hupst. }
  pose proof (head_object_frame s3_client bucket file_path)
    as (Hheadfs & _ & Hheadst & _).
  pose proof (verify_upload_preserves s3_client config fs file_path file_path
                log_free_fs Hheadfs w1) as Hvfs.
  pose proof (verify_upload_preserves s3_client config stats file_path file_path
                log_free_stats Hheadst w1) as Hvst.
  destruct (_verify_upload _ _ _ _ _) as [[[|]|e] w2]; cbn in Hvfs, Hvst.
  - cbv zeta.
    destruct (delete_after_upload config).
    2: { cbn. rewrite Hvst, Hupst. cbn. split; [lia | reflexivity]. }
    unfold path_unlink. cbn [fs stats_total_bytes_add stats_uploaded_add
                             set_stats add_log snd].
    rewrite Hvfs, Hupfs. cbn [fs upload_start checked add_log add_call].
    destruct (fs w) as [dir|] eqn:Hfs; [|discriminate Hf].
    cbn in Hf. rewrite Hf.
    destruct (writable dir).
    + cbn. rewrite Hvst, Hupst. cbn. split; [lia | reflexivity].
    + cbn. rewrite Hvst, Hupst. cbn. split; [discriminate | lia].
  - pose proof (delete_object_frame s3_client bucket file_path) as (_ & Hdst & _).
    specialize (Hdst (add_log (ERROR, MsgVerifyFailed file_path) w2)).
    destruct (s3_delete_object _ _ _ _) as [[[]|e] w3]; cbn in Hdst.
    + apply Hno. cbn in *. congruence.
    + apply Hexc. cbn in *. congruence.
  - apply Hexc. cbn in *. congruence.
Qed.

End WorkerOutcomes.

(** ** More on the verifier *)

Section VerifierEffects.
Context {Remote : Type} (s3_client : S3Client Remote) {hashlib : Hashlib}.
Context (config : BackupConfig).


End VerifierEffects.

(** ** More on the selection *)

Section SelectionOrder.
Context {Remote : Type} (config : BackupConfig).

Lemma insert_by_perm {A} (key : A -> Z) (x : A) (l : list A) :
  insert_by key x l ≡ₚ x :: l.
Proof.
  induction l as [|y l IH]; cbn; [reflexivity|].
  destruct (key x <? key y)%Z; [reflexivity|].
  rewrite IH. apply Permutation_swap.
Qed.

Lemma sorted_acc_perm {A} (key : A -> Z) (l acc : list A) :
  fold_left (fun acc y => insert_by key y acc) l acc ≡ₚ l ++ acc.
Proof.
  revert acc. induction l as [|y l IH]; intros acc; cbn; [reflexivity|].
  rewrite IH, insert_by_perm. by rewrite Permutation_middle.
Qed.

(** [sorted] rearranges the list. *)
Lemma sorted_perm {A} (key : A -> Z) (l : list A) : sorted key l ≡ₚ l.
Proof. unfold sorted. by rewrite sorted_acc_perm, app_nil_r. Qed.

Lemma insert_by_hd {A} (key : A -> Z) (x y : A) (l : list A) :
  key y <= key x ->
  HdRel (fun a b => key a <= key b) y l ->
  HdRel (fun a b => key a <= key b) y (insert_by key x l).
Proof.
  intros Hyx Hhd. destruct l as [|z l]; cbn; [by constructor|].
  destruct (key x <? key z)%Z; constructor; [done|].
  by inversion Hhd.
Qed.

Lemma insert_by_ascending {A} (key : A -> Z) (x : A) (l : list A) :
  Sorted (fun a b => key a <= key b) l ->
  Sorted (fun a b => key a <= key b) (insert_by key x l).
Proof.
  induction 1 as [|y l Hl IH Hhd]; cbn; [by repeat constructor|].
  destruct (Z.ltb_spec (key x) (key y)).
  - constructor; [by constructor|]. constructor. lia.
  - constructor; [exact IH|]. apply insert_by_hd; [lia | exact Hhd].
Qed.

(** [sorted] puts the keys in ascending order. *)
Lemma sorted_ascending {A} (key : A -> Z) (l : list A) :
  Sorted (fun a b => key a <= key b) (sorted key l).
Proof.
  unfold sorted.
  assert (H : forall acc,
             Sorted (fun a b => key a <= key b) acc ->
             Sorted (fun a b => key a <= key b)
                    (fold_left (fun acc y => insert_by key y acc) l acc)).
  { induction l as [|y l IH]; intros acc Hacc; cbn; [exact Hacc|].
    apply IH. by apply insert_by_ascending. }
  apply H. constructor.
Qed.

Lemma Sorted_map_key {A} (key : A -> Z) (l : list A) :
  Sorted (fun a b => key a <= key b) l -> Sorted Z.le (map key l).
Proof.
  induction 1 as [|y l Hl IH Hhd]; cbn; constructor; [exact IH|].
  destruct Hhd; cbn; by constructor.
Qed.

(** What [get_files_for_backup] returns in an existing directory. *)
Lemma get_files_for_backup_unfold (w : World Remote) dir :
  fs w = Some dir ->
  get_files_for_backup config w =
  (Ok (map fst
         (sorted (fun e : string * File => st_ctime (snd e))
            (List.filter
               (qualifies config (clock w - day_delta config * day_us))
               (map_to_list (entries dir))))), w).
Proof. intros Hfs. unfold get_files_for_backup. rewrite Hfs. reflexivity. Qed.

Lemma selected_entries (w : World Remote) dir name f :
  In (name, f)
     (sorted (fun e : string * File => st_ctime (snd e))
        (List.filter (qualifies config (clock w - day_delta config * day_us))
           (map_to_list (entries dir)))) ->
  entries dir !! name = Some f.
Proof.
  intros Hin. apply list_elem_of_In in Hin. rewrite sorted_perm in Hin.
  apply list_elem_of_In, filter_In in Hin. destruct Hin as (Hin & _).
  by apply list_elem_of_In, elem_of_map_to_list in Hin.
Qed.

(** X10.  The candidates come oldest first: along the list that
    [get_files_for_backup] returns, [st_ctime] never decreases. *)
Theorem candidates_oldest_first :
  forall (w : World Remote) (dir : Directory),
    fs w = Some dir ->
    exists files : list string,
      fst (get_files_for_backup config w) = Ok files /\
      Sorted Z.le (map (ctime_of dir) files).
Proof.
  intros w dir Hfs. rewrite (get_files_for_backup_unfold w dir Hfs).
  eexists. split; [reflexivity|].
  rewrite map_map.
  erewrite map_ext_in.
  - apply Sorted_map_key, sorted_ascending.
  - intros [name f] Hin. cbn. unfold ctime_of.
    by rewrite (selected_entries w dir name f Hin).
Qed.

Lemma selected_names_nodup (w : World Remote) dir :
  NoDup (map fst
           (sorted (fun e : string * File => st_ctime (snd e))
              (List.filter (qualifies config (clock w - day_delta config * day_us))
                 (map_to_list (entries dir))))).
Proof.
  rewrite sorted_perm.
  eapply sublist_NoDup; [apply (NoDup_fst_map_to_list (entries dir))|].
  induction (map_to_list (entries dir)) as [|e l IH].
  - constructor.
  - cbn. destruct (qualifies _ _ e); cbn; by constructor.
Qed.

Lemma selected_names_exist (w : World Remote) dir :
  Forall (fun name => is_Some (entries dir !! name))
         (map fst
            (sorted (fun e : string * File => st_ctime (snd e))
               (List.filter
                  (qualifies config (clock w - day_delta config * day_us))
                  (map_to_list (entries dir))))).
Proof.
  apply Forall_forall. intros name Hin.
  apply list_elem_of_In, in_map_iff in Hin.
  destruct Hin as ([name' f] & Hname & Hin). cbn in Hname. subst name'.
  rewrite (selected_entries w dir name f Hin). by eexists.
Qed.

(** X11.  No file is a candidate twice, and every candidate is an entry of
    the directory: each selected file gets exactly one worker. *)
Theorem candidates_are_distinct_entries :
  forall (w : World Remote) (dir : Directory),
    fs w = Some dir ->
    exists files : list string,
      fst (get_files_for_backup config w) = Ok files /\
      NoDup files /\
      Forall (fun name => is_Some (entries dir !! name)) files.
Proof.
  intros w dir Hfs. rewrite (get_files_for_backup_unfold w dir Hfs).
  eexists. split; [reflexivity|]. split.
  - apply selected_names_nodup.
  - apply selected_names_exist.
Qed.

End SelectionOrder.

(** ** More on the run *)

Section RunOutcomes.
Context {Remote : Type} (s3_client : S3Client Remote) {hashlib : Hashlib}.
Context (config : BackupConfig).

Abbreviation bucket := (s3_bucket config).

Lemma log_statistics_returns (w : World Remote) :
  fst (log_statistics w) = Ok tt.
Proof. reflexivity. Qed.

Lemma run_backup_unfold dry_run (w : World Remote) :
  run_backup s3_client config dry_run w =
  match get_files_for_backup config (announced config dry_run w) with
  | (Raise e, w1) => (Raise e, w1)
  | (Ok [], w1) => (Ok true, add_log (INFO, MsgNoFiles) w1)
  | (Ok files, w1) =>
      match sum_sizes files
              (add_log (INFO, MsgFound (Z.of_nat (length files))) w1) with
      | (Raise e, w2) => (Raise e, w2)
      | (Ok total_size, w2) =>
          match run_pool s3_client config files dry_run
                  (add_log (INFO, MsgTotalSize total_size) w2) with
          | (Raise e, w3) => (Raise e, w3)
          | (Ok _, w3) =>
              (Ok (failed (stats (snd (log_statistics w3))) =? 0)%Z,
               snd (log_statistics w3))
          end
      end
  end.
Proof.
  unfold run_backup, announced, bind, logger, when, ret, get_stats.
  destruct dry_run; cbv beta iota zeta.
  all: destruct (get_files_for_backup config _) as [[[|f files]|e] w1];
    try reflexivity.
  all: destruct (sum_sizes _ _) as [[n|e] w2]; try reflexivity.
  all: destruct (run_pool _ _ _ _ _) as [[[]|e] w3]; try reflexivity.
  all: pose proof (log_statistics_returns w3) as Hlog.
  all: destruct (log_statistics w3) as [[[]|e] w4]; [reflexivity|discriminate].
Qed.

Lemma sum_sizes_returns files (w : World Remote) :
  Forall (fun name => is_Some (lookup_file (fs w) name)) files ->
  exists n, sum_sizes files w = (Ok n, w).
Proof.
  induction 1 as [|name files [f Hf] _ (n & IH)]; cbn.
  - by eexists.
  - unfold bind, path_stat. rewrite Hf, IH. by eexists.
Qed.

(** What the collection loop leaves of the world of the workers. *)
Lemma run_pool_proj {X} (proj : World Remote -> X) files dry_run
    (w : World Remote) :
  log_free proj ->
  proj (snd (run_pool s3_client config files dry_run w))
  = proj (snd (submit_all s3_client config files dry_run w)).
Proof.
  intros Hfree. unfold run_pool, bind.
  destruct (submit_all s3_client config files dry_run w) as [[futs|e] w1];
    cbn [snd]; [|reflexivity].
  by apply as_completed_loop_preserves.
Qed.

Lemma announced_frame dry_run (w : World Remote) :
  fs (announced config dry_run w) = fs w /\
  remote (announced config dry_run w) = remote w /\
  stats (announced config dry_run w) = stats w /\
  calls (announced config dry_run w) = calls w /\
  clock (announced config dry_run w) = clock w.
Proof. destruct dry_run; repeat split; reflexivity. Qed.

(** A run in an existing directory is the pool of its candidates, started
    in a world that differs from the first one in its log only. *)
Lemma run_backup_as_pool dry_run (w : World Remote) dir files :
  fs w = Some dir ->
  fst (get_files_for_backup config w) = Ok files ->
  exists w0 : World Remote,
    fs w0 = fs w /\ remote w0 = remote w /\ stats w0 = stats w /\
    calls w0 = calls w /\ clock w0 = clock w /\
    let pool := snd (submit_all s3_client config files dry_run w0) in
    let r := run_backup s3_client config dry_run w in
    fst r = Ok (match files with
                | [] => true
                | _ => (failed (stats pool) =? 0)%Z
                end) /\
    fs (snd r) = fs pool /\ remote (snd r) = remote pool /\
    stats (snd r) = stats pool /\ calls (snd r) = calls pool.
Proof.
  intros Hfs Hfiles.
  destruct (announced_frame dry_run w) as (Hafs & Har & Has & Hac & Hak).
  rewrite (get_files_for_backup_unfold config w dir Hfs) in Hfiles.
  cbn in Hfiles. injection Hfiles as Hfiles.
  pose proof (selected_names_exist config w dir) as Hexist.
  rewrite Hfiles in Hexist.
  rewrite run_backup_unfold.
  rewrite (get_files_for_backup_unfold config (announced config dry_run w) dir)
    by (by rewrite Hafs).
  rewrite Hak, Hfiles.
  destruct files as [|f rest].
  - exists (announced config dry_run w). cbn. auto 10.
  - set (files := f :: rest) in *.
    destruct (sum_sizes_returns files
                (add_log (INFO, MsgFound (Z.of_nat (length files)))
                   (announced config dry_run w))) as (n & ->).
    { cbn [fs add_log]. rewrite Hafs, Hfs. exact Hexist. }
    set (w0 := add_log (INFO, MsgTotalSize n) _).
    exists w0.
    do 5 (split; [assumption|]).
    cbv zeta.
    pose proof (run_pool_never_raises s3_client config files dry_run w0)
      as ([] & Hok).
    pose proof (run_pool_proj fs files dry_run w0 log_free_fs) as Hpfs.
    pose proof (run_pool_proj remote files dry_run w0 log_free_remote) as Hpr.
    pose proof (run_pool_proj stats files dry_run w0 log_free_stats) as Hps.
    pose proof (run_pool_proj calls files dry_run w0 log_free_calls) as Hpc.
    destruct (run_pool s3_client config files dry_run w0) as [[[]|e] w3];
      [|discriminate Hok].
    cbn in Hpfs, Hpr, Hps, Hpc. cbn [fst snd].
    rewrite (log_statistics_preserves fs log_free_fs w3).
    rewrite (log_statistics_preserves remote log_free_remote w3).
    rewrite (log_statistics_preserves stats log_free_stats w3).
    rewrite (log_statistics_preserves calls log_free_calls w3).
    rewrite Hpfs, Hpr, Hps, Hpc. auto.
Qed.

Lemma run_backup_without_directory dry_run (w : World Remote) :
  fs w = None ->
  run_backup s3_client config dry_run w
  = (Ok true,
     add_log (INFO, MsgNoFiles)
       (add_log (ERROR, MsgNoDirectory (backup_dir config))
          (announced config dry_run w))).
Proof.
  intros Hfs. rewrite run_backup_unfold. unfold get_files_for_backup.
  destruct (announced_frame dry_run w) as (-> & _). rewrite Hfs. reflexivity.
Qed.

(** X12.  When the backup directory does not exist, [run_backup] logs the
    error and returns [True]: it sends no request, changes no counter, and
    the run counts as a success. *)
Theorem missing_directory_counts_as_success :
  forall (dry_run : bool) (w : World Remote),
    fs w = None ->
    let r := run_backup s3_client config dry_run w in
    fst r = Ok true /\
    stats (snd r) = stats w /\
    calls (snd r) = calls w /\
    remote (snd r) = remote w /\
    In (ERROR, MsgNoDirectory (backup_dir config)) (log (snd r)).
Proof.
  intros dry_run w Hfs r. subst r.
  rewrite (run_backup_without_directory dry_run w Hfs).
  destruct (announced_frame dry_run w) as (_ & Hr & Hs & Hc & _).
  cbn. repeat split; try assumption.
  apply in_or_app. left. apply in_or_app. right. by left.
Qed.

(** What [run_backup] returns, against the [failed] counter. *)
Lemma run_backup_returns :
  forall (dry_run : bool) (w : World Remote),
    let r := run_backup s3_client config dry_run w in
    exists success : bool,
      fst r = Ok success /\
      (failed (stats (snd r)) = 0 -> success = true) /\
      (failed (stats w) = 0 -> success = true -> failed (stats (snd r)) = 0).
Proof.
  intros dry_run w r. subst r.
  destruct (fs w) as [dir|] eqn:Hfs.
  - destruct (run_backup_as_pool dry_run w dir _ Hfs
                (f_equal fst (get_files_for_backup_unfold config w dir Hfs)))
      as (w0 & _ & _ & Hs0 & _ & _ & Hres & _ & _ & Hst & _).
    cbv zeta in Hres, Hst. rewrite Hres, Hst.
    cbn [fst] in *.
    destruct (map fst _) as [|f rest].
    + exists true. cbn. rewrite Hs0. auto.
    + eexists. split; [reflexivity|]. rewrite Z.eqb_eq. auto.
  - rewrite (run_backup_without_directory dry_run w Hfs).
    destruct (announced_frame dry_run w) as (_ & _ & Hs & _).
    exists true. cbn [fst snd stats add_log]. rewrite Hs. auto.
Qed.

(** X13.  Within the limits of the library ([max_workers] positive, dates
    that [datetime] can hold), and with [backup_dir] either absent or a
    directory that can be read and that nothing else changes during the
    run, [run_backup] does not raise.  It returns [True] whenever the
    [failed] counter is 0 at the end; and in a run that starts with
    [failed] at 0, as every run of [main] does, [True] is returned only
    then. *)
Theorem run_reports_failed_counter :
  forall (dry_run : bool) (w : World Remote),
    within_limits config w ->
    let r := run_backup s3_client config dry_run w in
    exists success : bool,
      fst r = Ok success /\
      (failed (stats (snd r)) = 0 -> success = true) /\
      (failed (stats w) = 0 -> success = true -> failed (stats (snd r)) = 0).
Proof. intros dry_run w _. apply run_backup_returns. Qed.

Lemma worker_keeps_others file_path other dry_run (w : World Remote) :
  other <> file_path ->
  lookup_file (fs (snd (_upload_file s3_client config file_path dry_run w))) other
  = lookup_file (fs w) other.
Proof.
  intros Hne. destruct (lookup_file (fs w) file_path) as [f|] eqn:Hf.
  - destruct (upload_file_fs_cases s3_client config file_path dry_run w f Hf)
      as [[-> _]|[_ (dir & Hdir & ->)]]; [reflexivity|].
    rewrite Hdir. cbn. by apply lookup_delete_ne.
  - rewrite upload_file_unfold, Hf. reflexivity.
Qed.

Lemma submit_all_extends files dry_run (w : World Remote) :
  exists cs, calls (snd (submit_all s3_client config files dry_run w))
             = calls w ++ cs.
Proof.
  destruct (submit_all_requests s3_client config (fun _ => True) files dry_run)
    with (w := w) as (cs & Hcs & _); [|eauto].
  intros file_path w1.
  destruct (upload_file_calls s3_client config file_path dry_run w1)
    as (cs & Hcs & _).
  exists cs. split; [exact Hcs|]. by apply Forall_forall.
Qed.

(** Every file of the pool that is in the directory as the pool starts gets
    its existence check, whatever the other workers do. *)
Lemma submit_all_checks_each files dry_run :
  forall w : World Remote,
    NoDup files ->
    Forall (fun name => is_Some (lookup_file (fs w) name)) files ->
    forall name, In name files ->
      In (HeadObject bucket name)
         (calls (snd (submit_all s3_client config files dry_run w))).
Proof.
  induction files as [|file_path rest IH]; intros w Hnodup Hexist name Hin.
  - destruct Hin.
  - rewrite submit_all_cons.
    apply NoDup_cons in Hnodup. destruct Hnodup as (Hnotin & Hnodup).
    apply Forall_cons in Hexist. destruct Hexist as (Hfile & Hexist).
    set (w1 := snd (_upload_file s3_client config file_path dry_run w)).
    destruct Hin as [->|Hin].
    + destruct (upload_file_calls s3_client config name dry_run w)
        as (cs & Hcs & _ & _ & Hhead).
      destruct (Hhead Hfile) as (cs' & ->).
      destruct (submit_all_extends rest dry_run w1) as (more & ->).
      subst w1. rewrite Hcs.
      apply in_or_app. left. apply in_or_app. right. by left.
    + apply IH; [exact Hnodup| |exact Hin].
      apply Forall_forall. intros other Hother.
      subst w1. rewrite worker_keeps_others.
      * by apply (proj1 (Forall_forall _ _) Hexist).
      * intros ->. apply Hnotin. exact Hother.
Qed.

(** X14.  In a run within the limits of the library ([max_workers]
    positive, dates that [datetime] can hold), in a directory that nothing
    but the run itself changes, every candidate gets its worker as far as
    the existence check, whatever happens to the others: no failure of one
    file keeps another from being processed. *)
Theorem every_candidate_is_processed :
  forall (dry_run : bool) (w : World Remote) (dir : Directory),
    fs w = Some dir ->
    within_limits config w ->
    exists files : list string,
      fst (get_files_for_backup config w) = Ok files /\
      forall name : string,
        In name files ->
        In (HeadObject bucket name)
           (calls (snd (run_backup s3_client config dry_run w))).
Proof.
  intros dry_run w dir Hfs _.
  pose proof (f_equal fst (get_files_for_backup_unfold config w dir Hfs))
    as Hfiles. cbn [fst] in Hfiles.
  eexists. split; [exact Hfiles|].
  destruct (run_backup_as_pool dry_run w dir _ Hfs Hfiles)
    as (w0 & Hfs0 & _ & _ & _ & _ & _ & _ & _ & _ & Hcalls).
  cbv zeta in Hcalls. rewrite Hcalls.
  apply submit_all_checks_each.
  - apply selected_names_nodup.
  - rewrite Hfs0, Hfs. cbn. apply selected_names_exist.
Qed.

Lemma st_size_nonneg (f : File) : 0 <= st_size f.
Proof. unfold st_size. lia. Qed.

Lemma submit_all_bounds files dry_run :
  forall w : World Remote,
    let s := stats w in
    let s' := stats (snd (submit_all s3_client config files dry_run w)) in
    uploaded s <= uploaded s' /\ skipped s <= skipped s' /\
    failed s <= failed s' /\ deleted s <= deleted s' /\
    total_bytes s <= total_bytes s' /\
    (uploaded s' - uploaded s) + (skipped s' - skipped s)
    <= Z.of_nat (length files) /\
    failed s' - failed s <= Z.of_nat (length files).
Proof.
  induction files as [|file_path rest IH]; intros w; cbv zeta.
  - cbn. lia.
  - rewrite submit_all_cons.
    destruct (upload_file_counts s3_client config file_path dry_run w)
      as (du & ds & df & dd & (Hu & Hs & Hf & Hd & Ht) & ? & ? & ? & ? & ?
          & ? & ? & ? & _).
    specialize (IH (snd (_upload_file s3_client config file_path dry_run w))).
    cbv zeta in IH.
    assert (0 <= du * size_of file_path w).
    { unfold size_of. destruct (lookup_file _ _) as [f|]; [|lia].
      pose proof (st_size_nonneg f). nia. }
    cbn [length]. lia.
Qed.

(** X15.  Over a run no counter goes down, [uploaded] and [skipped]
    together grow by at most the number of candidates, and so does
    [failed]. *)
Theorem counters_bounded_by_candidates :
  forall (dry_run : bool) (w : World Remote) (dir : Directory),
    fs w = Some dir ->
    exists files : list string,
      fst (get_files_for_backup config w) = Ok files /\
      let s := stats w in
      let s' := stats (snd (run_backup s3_client config dry_run w)) in
      uploaded s <= uploaded s' /\ skipped s <= skipped s' /\
      failed s <= failed s' /\ deleted s <= deleted s' /\
      total_bytes s <= total_bytes s' /\
      (uploaded s' - uploaded s) + (skipped s' - skipped s)
      <= Z.of_nat (length files) /\
      failed s' - failed s <= Z.of_nat (length files).
Proof.
  intros dry_run w dir Hfs.
  pose proof (f_equal fst (get_files_for_backup_unfold config w dir Hfs))
    as Hfiles. cbn [fst] in Hfiles.
  eexists. split; [exact Hfiles|].
  destruct (run_backup_as_pool dry_run w dir _ Hfs Hfiles)
    as (w0 & _ & _ & Hs0 & _ & _ & _ & _ & _ & Hst & _).
  cbv zeta in Hst |- *. rewrite Hst, <- Hs0.
  apply submit_all_bounds.
Qed.

(** X16.  A simulated run counts no upload: [uploaded], [deleted] and
    [total_bytes] are at the end what they were at the start. *)
Theorem dry_run_counts_no_upload :
  forall w : World Remote,
    let s' := stats (snd (run_backup s3_client config true w)) in
    uploaded s' = uploaded (stats w) /\
    deleted s' = deleted (stats w) /\
    total_bytes s' = total_bytes (stats w).
Proof.
  intros w.
  pose (proj := fun w : World Remote =>
                  (uploaded (stats w), deleted (stats w), total_bytes (stats w))).
  assert (Hfree : log_free proj) by (constructor; reflexivity).
  assert (H : proj (snd (run_backup s3_client config true w)) = proj w).
  { apply run_backup_preserves; [exact Hfree|].
    intros file_path. apply upload_file_dry_run_preserves; [exact Hfree|..];
      intros w0; reflexivity. }
  unfold proj in H. injection H as Hu Hd Ht. auto.
Qed.

End RunOutcomes.

(** ** The configuration file and the exit status *)

Lemma split_not_nil (c : ascii) (s : string) : PyText.split c s <> [].
Proof.
  destruct s as [|a s]; cbn; [discriminate|].
  destruct (Ascii.eqb a c); [discriminate|].
  destruct (PyText.split c s); discriminate.
Qed.

Lemma split_without_separator (c : ascii) (x : string) :
  PyStr.contains c x = false -> PyText.split c x = [x].
Proof.
  induction x as [|a x IH]; cbn; [reflexivity|].
  destruct (Ascii.eqb a c); [discriminate|].
  intros H. by rewrite IH.
Qed.

Lemma split_at_separator (c : ascii) (x rest : string) :
  PyStr.contains c x = false ->
  PyText.split c (x ++ String c rest)%string = x :: PyText.split c rest.
Proof.
  induction x as [|a x IH]; simpl.
  - intros _. by rewrite Ascii.eqb_refl.
  - destruct (Ascii.eqb a c); [discriminate|].
    intros H. by rewrite IH.
Qed.

Lemma split_join (x : string) (rest : list string) :
  Forall (fun y => PyStr.contains ","%char y = false) (x :: rest) ->
  PyText.split ","%char (PyText.join ", " (x :: rest))
  = x :: map (String " "%char) rest.
Proof.
  revert x. induction rest as [|y rest IH]; intros x Hall.
  - cbn. apply split_without_separator. by inversion Hall.
  - apply Forall_cons in Hall. destruct Hall as (Hx & Hrest).
    change (PyText.join ", " (x :: y :: rest))
      with (x ++ String ","%char (String " "%char
                                    (PyText.join ", " (y :: rest))))%string.
    rewrite split_at_separator by exact Hx.
    change (PyText.split ","%char (String " "%char ?s))
      with (match PyText.split ","%char s with
            | piece :: pieces => String " "%char piece :: pieces
            | [] => [String " "%char EmptyString]
            end).
    by rewrite (IH y Hrest).
Qed.

Lemma rstrip_idempotent (s : string) :
  PyText.rstrip (PyText.rstrip s) = PyText.rstrip s.
Proof.
  induction s as [|a s IH]; [reflexivity|].
  cbn. destruct (PyText.rstrip s) as [|b r] eqn:Hr.
  - destruct (PyText.isspace a) eqn:Ha; [reflexivity|]. cbn. by rewrite Ha.
  - cbn in IH |- *. by rewrite IH.
Qed.

Lemma rstrip_keeps_first (a : ascii) (s : string) :
  PyText.isspace a = false ->
  PyText.rstrip (String a s) = String a (PyText.rstrip s).
Proof.
  intros Ha. cbn. destruct (PyText.rstrip s); [by rewrite Ha | reflexivity].
Qed.

Lemma lstrip_cases (s : string) :
  PyText.lstrip s = EmptyString \/
  exists a t, PyText.lstrip s = String a t /\ PyText.isspace a = false.
Proof.
  induction s as [|a s IH]; cbn; [by left|].
  destruct (PyText.isspace a) eqn:Ha; [exact IH|]. right. eauto.
Qed.

(** Stripping twice is stripping once. *)
Lemma strip_idempotent (s : string) :
  PyText.strip (PyText.strip s) = PyText.strip s.
Proof.
  unfold PyText.strip.
  destruct (lstrip_cases s) as [->|(a & t & -> & Ha)]; [reflexivity|].
  rewrite rstrip_keeps_first by exact Ha.
  cbn [PyText.lstrip]. rewrite Ha.
  rewrite rstrip_keeps_first by exact Ha.
  by rewrite rstrip_idempotent.
Qed.

(** X17.  The [extensions] option round-trips: a tuple of extensions that
    have no comma and no white space at either end, written with [", "]
    between them as in the sample configuration, is read back as it is. *)
Theorem extensions_round_trip :
  forall exts : list string,
    exts <> [] ->
    Forall (fun x => PyText.strip x = x /\ PyStr.contains ","%char x = false)
           exts ->
    parse_extensions (PyText.join ", " exts) = exts.
Proof.
  intros [|x rest] Hne Hall; [done|].
  unfold parse_extensions. rewrite split_join.
  2: { eapply Forall_impl; [exact Hall|]. by intros y (_ & Hy). }
  apply Forall_cons in Hall. destruct Hall as ((Hx & _) & Hrest).
  cbn [map]. rewrite Hx. f_equal. clear Hne.
  induction Hrest as [|y rest (Hy & _) _ IH]; [reflexivity|].
  cbn [map]. rewrite IH.
  change (PyText.strip (String " "%char y)) with (PyText.strip y).
  by rewrite Hy.
Qed.

Lemma split_length (c : ascii) (s : string) :
  length (PyText.split c s)
  = S (length (List.filter (Ascii.eqb c) (list_ascii_of_string s))).
Proof.
  induction s as [|a s IH]; [reflexivity|].
  simpl. rewrite (Ascii.eqb_sym c a). destruct (Ascii.eqb a c).
  - simpl. by rewrite IH.
  - pose proof (split_not_nil c s).
    destruct (PyText.split c s); [done|]. exact IH.
Qed.

(** X18.  Whatever the [extensions] option holds, it is read as a tuple
    with at least one element and one element more than it has commas, and
    no element has white space at either end; an empty option gives the
    single extension [''] (the suffix of a name without extension). *)
Theorem extensions_are_stripped :
  forall value : string,
    parse_extensions value <> [] /\
    length (parse_extensions value)
    = S (length (List.filter (Ascii.eqb ","%char) (list_ascii_of_string value))) /\
    Forall (fun x => PyText.strip x = x) (parse_extensions value) /\
    (value = EmptyString -> parse_extensions value = [EmptyString]).
Proof.
  intros value. unfold parse_extensions. repeat split.
  - pose proof (split_not_nil ","%char value).
    destruct (PyText.split _ _); [done | discriminate].
  - rewrite length_map. apply split_length.
  - apply Forall_forall. intros x Hin.
    apply list_elem_of_In, in_map_iff in Hin. destruct Hin as (y & <- & _).
    apply strip_idempotent.
  - intros ->. reflexivity.
Qed.

Section StartupFacts.
Context {Remote : Type} {hashlib : Hashlib}.
Context (py_int : string -> option Z).
Context (convert_to_boolean : string -> option bool).
Context (Path : string -> string).
Context (_create_s3_client : BackupConfig -> Result (S3Client Remote)).

(** X19.  A configuration file that has the two sections and the six
    required options, and none of the optional ones, is loaded with the
    defaults: 3 days, region [ru-1], certificate checks on, deletion after
    upload on, 3 workers, a multipart threshold of 100 MB, 3 retries. *)
Theorem load_config_defaults :
  forall (sections : gmap string (gmap string string))
         (s3_section backup_section : gmap string string)
         (directory extensions endpoint bucket access_key secret_key : string),
    sections !! "s3" = Some s3_section ->
    sections !! "backup" = Some backup_section ->
    backup_section !! "directory" = Some directory ->
    backup_section !! "extensions" = Some extensions ->
    s3_section !! "endpoint" = Some endpoint ->
    s3_section !! "bucket" = Some bucket ->
    s3_section !! "access_key" = Some access_key ->
    s3_section !! "secret_key" = Some secret_key ->
    backup_section !! "day_delta" = None ->
    s3_section !! "region" = None ->
    s3_section !! "verify_ssl" = None ->
    backup_section !! "delete_after_upload" = None ->
    backup_section !! "max_workers" = None ->
    backup_section !! "multipart_threshold" = None ->
    backup_section !! "max_retries" = None ->
    load_config py_int convert_to_boolean Path (Parsed sections)
    = Config_ok {| backup_dir := Path directory;
                   backup_extensions := parse_extensions extensions;
                   day_delta := 3;
                   s3_endpoint := endpoint;
                   s3_bucket := bucket;
                   s3_access_key := access_key;
                   s3_secret_key := secret_key;
                   s3_region := "ru-1";
                   verify_ssl := true;
                   delete_after_upload := true;
                   max_workers := 3;
                   multipart_threshold := 104857600;
                   max_retries := 3 |}.
Proof.
  intros sections s3_section backup_section directory extensions endpoint
    bucket access_key secret_key Hs3 Hbackup Hdir Hext Hend Hbucket Hak Hsk
    Hdelta Hregion Hssl Hdel Hworkers Hthreshold Hretries.
  unfold load_config, getitem_section, getitem_option, section_getint,
    section_getboolean, section_get.
  rewrite Hs3, Hbackup. cbn [loaded_bind].
  rewrite Hdir, Hext, Hdelta. cbn [loaded_bind].
  rewrite Hend, Hbucket, Hak, Hsk, Hregion, Hssl. cbn [loaded_bind].
  rewrite Hdel, Hworkers, Hthreshold, Hretries. reflexivity.
Qed.

Lemma loaded_bind_ok {A B} (m : Loaded A) (k : A -> Loaded B) (b : B) :
  loaded_bind m k = Config_ok b ->
  exists a, m = Config_ok a /\ k a = Config_ok b.
Proof. destruct m as [a|err]; cbn; [eauto | discriminate]. Qed.

Lemma getitem_option_ok (section : gmap string string) name value :
  getitem_option section name = Config_ok value -> section !! name = Some value.
Proof. unfold getitem_option. destruct (section !! name); congruence. Qed.

Lemma section_getint_ok (section : gmap string string) name fallback n :
  section_getint py_int section name fallback = Config_ok n ->
  (section !! name = None -> n = fallback) /\
  (forall value, section !! name = Some value -> py_int value = Some n).
Proof.
  unfold section_getint. destruct (section !! name) as [v|].
  - destruct (py_int v) eqn:Hv; [|discriminate].
    intros [= <-]. split; [discriminate|]. by intros value [= <-].
  - intros [= <-]. split; [reflexivity | discriminate].
Qed.

Lemma section_getboolean_ok (section : gmap string string) name fallback b :
  section_getboolean convert_to_boolean section name fallback = Config_ok b ->
  (section !! name = None -> b = fallback) /\
  (forall value, section !! name = Some value ->
                 convert_to_boolean value = Some b).
Proof.
  unfold section_getboolean. destruct (section !! name) as [v|].
  - destruct (convert_to_boolean v) eqn:Hv; [|discriminate].
    intros [= <-]. split; [discriminate|]. by intros value [= <-].
  - intros [= <-]. split; [reflexivity | discriminate].
Qed.

(** X20.  For a file without a percent sign in its values, which
    [ConfigParser] therefore reads as they are written (it interpolates
    every other value, or rejects it): [load_config] returns a
    configuration only if the file is there and has both sections and the
    six required options, and the configuration holds what the file holds:
    the required values as they are written, and for every optional value
    that is written its conversion, never the default in its place. *)
Theorem load_config_reads_the_file :
  forall (config_file : ConfigFile) (config : BackupConfig),
    interpolation_free config_file = true ->
    load_config py_int convert_to_boolean Path config_file = Config_ok config ->
    exists (sections : gmap string (gmap string string))
           (s3_section backup_section : gmap string string)
           (directory extensions : string),
      config_file = Parsed sections /\
      sections !! "s3" = Some s3_section /\
      sections !! "backup" = Some backup_section /\
      backup_section !! "directory" = Some directory /\
      backup_dir config = Path directory /\
      backup_section !! "extensions" = Some extensions /\
      backup_extensions config = parse_extensions extensions /\
      s3_section !! "endpoint" = Some (s3_endpoint config) /\
      s3_section !! "bucket" = Some (s3_bucket config) /\
      s3_section !! "access_key" = Some (s3_access_key config) /\
      s3_section !! "secret_key" = Some (s3_secret_key config) /\
      s3_region config = default "ru-1" (s3_section !! "region") /\
      (forall v, backup_section !! "day_delta" = Some v ->
                 py_int v = Some (day_delta config)) /\
      (forall v, backup_section !! "max_workers" = Some v ->
                 py_int v = Some (max_workers config)) /\
      (forall v, backup_section !! "multipart_threshold" = Some v ->
                 py_int v = Some (multipart_threshold config)) /\
      (forall v, backup_section !! "max_retries" = Some v ->
                 py_int v = Some (max_retries config)) /\
      (forall v, s3_section !! "verify_ssl" = Some v ->
                 convert_to_boolean v = Some (verify_ssl config)) /\
      (forall v, backup_section !! "delete_after_upload" = Some v ->
                 convert_to_boolean v = Some (delete_after_upload config)).
Proof.
  intros [| |sections] config _ H; try discriminate H.
  unfold load_config in H.
  apply loaded_bind_ok in H. destruct H as (s3_section & Hs3 & H).
  apply loaded_bind_ok in H. destruct H as (backup_section & Hbackup & H).
  apply loaded_bind_ok in H. destruct H as (directory & Hdir & H).
  apply loaded_bind_ok in H. destruct H as (extensions & Hext & H).
  apply loaded_bind_ok in H. destruct H as (delta & Hdelta & H).
  apply loaded_bind_ok in H. destruct H as (endpoint & Hend & H).
  apply loaded_bind_ok in H. destruct H as (bucket & Hbucket & H).
  apply loaded_bind_ok in H. destruct H as (access_key & Hak & H).
  apply loaded_bind_ok in H. destruct H as (secret_key & Hsk & H).
  cbv zeta in H.
  apply loaded_bind_ok in H. destruct H as (ssl & Hssl & H).
  apply loaded_bind_ok in H. destruct H as (del & Hdel & H).
  apply loaded_bind_ok in H. destruct H as (workers & Hworkers & H).
  apply loaded_bind_ok in H. destruct H as (threshold & Hthreshold & H).
  apply loaded_bind_ok in H. destruct H as (retries & Hretries & H).
  injection H as <-.
  unfold getitem_section in Hs3, Hbackup.
  destruct (sections !! "s3") as [s3'|] eqn:Es3; [|discriminate Hs3].
  destruct (sections !! "backup") as [backup'|] eqn:Ebackup;
    [|discriminate Hbackup].
  injection Hs3 as ->. injection Hbackup as ->.
  apply getitem_option_ok in Hdir, Hext, Hend, Hbucket, Hak, Hsk.
  apply section_getint_ok in Hdelta, Hworkers, Hthreshold, Hretries.
  apply section_getboolean_ok in Hssl, Hdel.
  exists sections, s3_section, backup_section, directory, extensions.
  cbn. unfold section_get. intuition.
Qed.


End StartupFacts.

(** ** The further theorems at work on the store in memory *)

Lemma file_hash_covers_whole_file_witness :
  _calculate_file_hash "big.bin" "md5" Sim.with_big
  = (Ok (hexdigest (hash_update (hashlib_new "md5") (data Sim.big))),
     Sim.with_big).
Proof.
  exact (proj1 (file_hash_covers_whole_file "big.bin" Sim.with_big)
           Sim.big eq_refl eq_refl).
Defined.

Lemma failed_check_uploads_nothing_witness :
  let w := Sim.fresh true Sim.HeadFails in
  let r := _upload_file Sim.client (Sim.config true) "db.zip" false w in
  fst r = Ok false /\
  calls (snd r) = calls w ++ [HeadObject "backup" "db.zip"] /\
  remote (snd r) = remote w /\
  fs (snd r) = fs w /\
  bumped (stats w) (stats (snd r)) 0 0 1 0 0.
Proof.
  apply (failed_check_uploads_nothing Sim.client (Sim.config true) "db.zip"
           false (Sim.fresh true Sim.HeadFails) Sim.archive (ClientError "500")).
  - reflexivity.
  - reflexivity.
  - discriminate.
Defined.

Lemma refused_upload_is_a_failure_witness :
  let config := Sim.config true in
  let w := Sim.fresh true Sim.UploadFails in
  let w1 := snd (upload_call Sim.client config "db.zip" "db.zip"
                   (upload_start config "db.zip" 3 w)) in
  let r := _upload_file Sim.client config "db.zip" false w in
  fst r = Ok false /\
  bumped (stats w) (stats (snd r)) 0 0 1 0 0 /\
  fs (snd r) = fs w /\
  remote (snd r) = remote w1 /\
  calls (snd r)
  = calls w ++ [HeadObject "backup" "db.zip";
                upload_request config "db.zip" "db.zip" (clock w)].
Proof.
  apply (refused_upload_is_a_failure Sim.client (Sim.config true) "db.zip"
           (Sim.fresh true Sim.UploadFails)
           (snd (upload_call Sim.client (Sim.config true) "db.zip" "db.zip"
                   (upload_start (Sim.config true) "db.zip" 3
                      (Sim.fresh true Sim.UploadFails))))
           Sim.archive (S3UploadFailedError "/var/db_backup/db.zip")).
  - reflexivity.
  - reflexivity.
  - vm_compute. reflexivity.
Defined.

Lemma failed_verification_deletes_remote_copy_witness :
  let config := Sim.config true in
  let w := Sim.fresh true Sim.Corrupts in
  let w1 := snd (upload_call Sim.client config "db.zip" "db.zip"
                   (upload_start config "db.zip" 3 w)) in
  let w2 := snd (_verify_upload Sim.client config "db.zip" "db.zip" w1) in
  let r := _upload_file Sim.client config "db.zip" false w in
  let deletion := delete_object Sim.client (remote w2) "backup" "db.zip" in
  fst r = Ok false /\
  calls (snd r) = calls w2 ++ [DeleteObject "backup" "db.zip"] /\
  remote (snd r) = fst deletion /\
  fs (snd r) = fs w /\
  bumped (stats w) (stats (snd r)) 0 0
         (match snd deletion with Ok _ => 0 | Raise _ => 1 end) 0 0.
Proof.
  apply (failed_verification_deletes_remote_copy Sim.client (Sim.config true)
           "db.zip" (Sim.fresh true Sim.Corrupts)
           (snd (upload_call Sim.client (Sim.config true) "db.zip" "db.zip"
                   (upload_start (Sim.config true) "db.zip" 3
                      (Sim.fresh true Sim.Corrupts))))
           (snd (_verify_upload Sim.client (Sim.config true) "db.zip" "db.zip"
                   (snd (upload_call Sim.client (Sim.config true)
                           "db.zip" "db.zip"
                           (upload_start (Sim.config true) "db.zip" 3
                              (Sim.fresh true Sim.Corrupts))))))
           Sim.archive).
  - reflexivity.
  - reflexivity.
  - vm_compute. reflexivity.
  - vm_compute. reflexivity.
Defined.

Lemma candidates_oldest_first_witness :
  exists files : list string,
    fst (get_files_for_backup (Sim.config true) (Sim.fresh true Sim.Healthy))
    = Ok files /\
    Sorted Z.le (map (ctime_of Sim.directory) files).
Proof.
  exact (candidates_oldest_first (Sim.config true) (Sim.fresh true Sim.Healthy)
           Sim.directory eq_refl).
Defined.

Lemma candidates_are_distinct_entries_witness :
  exists files : list string,
    fst (get_files_for_backup (Sim.config true) (Sim.fresh true Sim.Healthy))
    = Ok files /\
    NoDup files /\
    Forall (fun name => is_Some (entries Sim.directory !! name)) files.
Proof.
  exact (candidates_are_distinct_entries (Sim.config true)
           (Sim.fresh true Sim.Healthy) Sim.directory eq_refl).
Defined.

Lemma missing_directory_counts_as_success_witness :
  let w := Sim.without_directory in
  let r := run_backup Sim.client (Sim.config true) false w in
  fst r = Ok true /\
  stats (snd r) = stats w /\
  calls (snd r) = calls w /\
  remote (snd r) = remote w /\
  In (ERROR, MsgNoDirectory "/var/db_backup") (log (snd r)).
Proof.
  exact (missing_directory_counts_as_success Sim.client (Sim.config true) false
           Sim.without_directory eq_refl).
Defined.

Lemma every_candidate_is_processed_witness :
  exists files : list string,
    fst (get_files_for_backup (Sim.config true) (Sim.fresh true Sim.UploadFails))
    = Ok files /\
    forall name : string,
      In name files ->
      In (HeadObject "backup" name)
         (calls (snd (run_backup Sim.client (Sim.config true) false
                        (Sim.fresh true Sim.UploadFails)))).
Proof.
  refine (every_candidate_is_processed Sim.client (Sim.config true) false
            (Sim.fresh true Sim.UploadFails) Sim.directory eq_refl _).
  split; [reflexivity|].
  intros dir [= <-]. split.
  - vm_compute. repeat split; discriminate.
  - apply map_Forall_singleton. vm_compute. split; discriminate.
Defined.

Lemma counters_bounded_by_candidates_witness :
  exists files : list string,
    fst (get_files_for_backup (Sim.config true) (Sim.fresh true Sim.Healthy))
    = Ok files /\
    let s := stats (Sim.fresh true Sim.Healthy) in
    let s' := stats (snd (run_backup Sim.client (Sim.config true) false
                            (Sim.fresh true Sim.Healthy))) in
    uploaded s <= uploaded s' /\ skipped s <= skipped s' /\
    failed s <= failed s' /\ deleted s <= deleted s' /\
    total_bytes s <= total_bytes s' /\
    (uploaded s' - uploaded s) + (skipped s' - skipped s)
    <= Z.of_nat (length files) /\
    failed s' - failed s <= Z.of_nat (length files).
Proof.
  exact (counters_bounded_by_candidates Sim.client (Sim.config true) false
           (Sim.fresh true Sim.Healthy) Sim.directory eq_refl).
Defined.

Lemma extensions_round_trip_witness :
  parse_extensions (PyText.join ", " [".7z"; ".gz"; ".zip"])
  = [".7z"; ".gz"; ".zip"].
Proof.
  apply (extensions_round_trip [".7z"; ".gz"; ".zip"]).
  - discriminate.
  - repeat constructor.
Defined.

Lemma load_config_defaults_witness :
  load_config Sim.parse_int Sim.parse_boolean id (Parsed Sim.minimal_ini)
  = Config_ok (Sim.config true).
Proof.
  exact (load_config_defaults Sim.parse_int Sim.parse_boolean id
           Sim.minimal_ini
           {[ "endpoint" := "https://storage.example"; "bucket" := "backup";
              "access_key" := "ak"; "secret_key" := "sk" ]}
           {[ "directory" := "/var/db_backup";
              "extensions" := ".7z, .gz, .zip" ]}
           "/var/db_backup" ".7z, .gz, .zip" "https://storage.example"
           "backup" "ak" "sk"
           eq_refl eq_refl eq_refl eq_refl eq_refl eq_refl eq_refl eq_refl
           eq_refl eq_refl eq_refl eq_refl eq_refl eq_refl eq_refl).
Defined.

Lemma load_config_reads_the_file_witness :
  exists (sections : gmap string (gmap string string))
         (s3_section backup_section : gmap string string)
         (directory extensions : string),
    Parsed Sim.minimal_ini = Parsed sections /\
    sections !! "s3" = Some s3_section /\
    sections !! "backup" = Some backup_section /\
    backup_section !! "directory" = Some directory /\
    backup_dir (Sim.config true) = id directory /\
    backup_section !! "extensions" = Some extensions /\
    backup_extensions (Sim.config true) = parse_extensions extensions /\
    s3_section !! "endpoint" = Some (s3_endpoint (Sim.config true)) /\
    s3_section !! "bucket" = Some (s3_bucket (Sim.config true)) /\
    s3_section !! "access_key" = Some (s3_access_key (Sim.config true)) /\
    s3_section !! "secret_key" = Some (s3_secret_key (Sim.config true)) /\
    s3_region (Sim.config true) = default "ru-1" (s3_section !! "region") /\
    (forall v, backup_section !! "day_delta" = Some v ->
               Sim.parse_int v = Some (day_delta (Sim.config true))) /\
    (forall v, backup_section !! "max_workers" = Some v ->
               Sim.parse_int v = Some (max_workers (Sim.config true))) /\
    (forall v, backup_section !! "multipart_threshold" = Some v ->
               Sim.parse_int v = Some (multipart_threshold (Sim.config true))) /\
    (forall v, backup_section !! "max_retries" = Some v ->
               Sim.parse_int v = Some (max_retries (Sim.config true))) /\
    (forall v, s3_section !! "verify_ssl" = Some v ->
               Sim.parse_boolean v = Some (verify_ssl (Sim.config true))) /\
    (forall v, backup_section !! "delete_after_upload" = Some v ->
               Sim.parse_boolean v = Some (delete_after_upload (Sim.config true))).
Proof.
  apply (load_config_reads_the_file Sim.parse_int Sim.parse_boolean id
           (Parsed Sim.minimal_ini) (Sim.config true)).
  - vm_compute. reflexivity.
  - vm_compute. reflexivity.
Defined.

Lemma run_reports_failed_counter_witness :
  let w := Sim.fresh true Sim.UploadFails in
  let r := run_backup Sim.client (Sim.config true) false w in
  exists success : bool,
    fst r = Ok success /\
    (failed (stats (snd r)) = 0 -> success = true) /\
    (failed (stats w) = 0 -> success = true -> failed (stats (snd r)) = 0).
Proof.
  refine (run_reports_failed_counter Sim.client (Sim.config true) false
            (Sim.fresh true Sim.UploadFails) _).
  split; [reflexivity|].
  intros dir [= <-]. split.
  - vm_compute. repeat split; discriminate.
  - apply map_Forall_singleton. vm_compute. split; discriminate.
Defined.

